(** * CholestroCalc: the electrochemical sensor interface

    A shallow embedding of [CholestroCalc.py] (class [ElectrochemicalApp])
    and the properties of its sample sink, technique configuration,
    measurement start, persistence and peak analysis.

    Conventions of the embedding:
    - a Python [dict] is an insertion-ordered association list ([dict]);
    - a Python [float] is a binary64 value ([float], the primitive type);
    - a [try: ... except Exception as e:] block is a computation in the
      [result] type whose [Raise] branch is handled where the source
      handles it, so that every handler of the window is a total function
      on the application state;
    - labels and file names are ASCII text ([string]);
    - the vendor SDK, Qt, numpy and pandas are libraries outside the
      repository: the few operations the program calls are written out
      with the behaviour the libraries document, each in its own module. *)

From Stdlib Require Import ZArith List String Ascii Bool Lia Floats
  DecimalString.
From stdpp Require Import base tactics option list strings gmap.
Import ListNotations.
Open Scope string_scope.
Open Scope list_scope.

(** ** Python runtime *)

Module Py.

(** The exceptions that the modelled code paths can raise. *)
Inductive exn : Type :=
| KeyError (key : string)
| IndexError (index size : nat)
| ValueError (what : string)
| OverflowError
| UnboundLocalError (name : string)
| OSError (path : string)
| FileNotFoundError (path : string)
| EmptyDataError.

Inductive result (A : Type) : Type :=
| Ok (a : A)
| Raise (e : exn).
Arguments Ok {A} a.
Arguments Raise {A} e.

Definition bind {A B} (r : result A) (k : A -> result B) : result B :=
  match r with
  | Ok a => k a
  | Raise e => Raise e
  end.

(** [dict]: keys in insertion order, each key once. *)
Definition dict (V : Type) : Type := list (string * V).

Fixpoint dict_get {V} (k : string) (d : dict V) : option V :=
  match d with
  | [] => None
  | (k', v) :: d' => if String.eqb k' k then Some v else dict_get k d'
  end.

(** [d[k] = v]: replaces in place, or appends a new key at the end. *)
Fixpoint dict_set {V} (k : string) (v : V) (d : dict V) : dict V :=
  match d with
  | [] => [(k, v)]
  | (k', v') :: d' =>
      if String.eqb k' k then (k, v) :: d' else (k', v') :: dict_set k v d'
  end.

(** [d[k]] as an expression. *)
Definition subscript {V} (d : dict V) (k : string) : result V :=
  match dict_get k d with
  | Some v => Ok v
  | None => Raise (KeyError k)
  end.

Definition keys {V} (d : dict V) : list string := map fst d.

(** [str.lower] on ASCII text. *)
Definition ascii_lower (c : ascii) : ascii :=
  let n := N_of_ascii c in
  if ((65 <=? n) && (n <=? 90))%N then ascii_of_N (n + 32) else c.

Fixpoint lower (s : string) : string :=
  match s with
  | EmptyString => EmptyString
  | String c s' => String (ascii_lower c) (lower s')
  end.

(** [sub in s] for two strings. *)
Fixpoint str_in (sub s : string) : bool :=
  String.prefix sub s ||
  match s with
  | EmptyString => false
  | String _ s' => str_in sub s'
  end.

(** [int(x)] for a float: the integer part, rounding toward zero;
    [ValueError] on NaN and [OverflowError] on an infinity.  The finite
    value is [(-1)^s * m * 2^e]; for [e < 0] the low [-e] bits of the
    magnitude are dropped. *)
Definition int_of_spec (x : spec_float) : result Z :=
  match x with
  | S754_zero _ => Ok 0%Z
  | S754_nan => Raise (ValueError "cannot convert float NaN to integer")
  | S754_infinity _ => Raise OverflowError
  | S754_finite s m e =>
      let mag := if (0 <=? e)%Z then Z.shiftl (Z.pos m) e
                 else Z.shiftr (Z.pos m) (- e) in
      Ok (if s then (- mag)%Z else mag)
  end.

Definition int (x : float) : result Z := int_of_spec (Prim2SF x).

(** [n] is the exact value of the finite float [x] rounded toward zero:
    with [|x| = N / D] for [N = m * 2^max(0,e)] and [D = 2^max(0,-e)],
    [|n| <= |x| < |n| + 1], and [n] has the sign of [x] or is zero. *)
Definition rounds_toward_zero (x : spec_float) (n : Z) : Prop :=
  match x with
  | S754_zero _ => n = 0%Z
  | S754_finite s m e =>
      let N := (Z.pos m * 2 ^ Z.max 0 e)%Z in
      let D := (2 ^ Z.max 0 (- e))%Z in
      (Z.abs n * D <= N < (Z.abs n + 1) * D)%Z /\
      (if s then n <= 0 else 0 <= n)%Z
  | _ => False
  end.

End Py.

Import Py.

Notation "'let!' x ':=' r 'in' k" := (Py.bind r (fun x => k))
  (at level 10, x name, r at level 100, k at level 200).

(** ** numpy: the three reductions used by the analysis *)

Module Np.

(** [np.abs] on a one-dimensional float array. *)
Definition abs (a : list float) : list float := map PrimFloat.abs a.

(** [a.shape] of a one-dimensional array, as Python prints the tuple:
    [(3,)]. *)
Definition shape (a : list float) : string :=
  ("(" ++ NilZero.string_of_uint (Nat.to_uint (length a)) ++ ",)")%string.

(** [np.maximum] on two scalars: the first operand when it is at least
    the second or is NaN, the second otherwise; a NaN on either side is
    propagated. *)
Definition maximum (x y : float) : float :=
  if (PrimFloat.leb y x || PrimFloat.is_nan x)%bool then x else y.

(** [np.max]: [maximum] reduced from the first element ([ValueError] on
    an empty array). *)
Definition max (a : list float) : result float :=
  match a with
  | [] =>
      Raise (ValueError
               "zero-size array to reduction operation maximum which has no identity")
  | x :: rest => Ok (fold_left maximum rest x)
  end.

(** The scan of [np.argmax] over the tail: [mp] is the running maximum,
    [best] its index, [i] the index of the next element.  A NaN, once
    met, is maximal and ends the scan. *)
Fixpoint argmax_from (rest : list float) (mp : float) (best i : nat) : nat :=
  match rest with
  | [] => best
  | x :: rest' =>
      if PrimFloat.leb x mp then argmax_from rest' mp best (S i)
      else if PrimFloat.is_nan x then i
      else argmax_from rest' x i (S i)
  end.

Definition argmax (a : list float) : result nat :=
  match a with
  | [] => Raise (ValueError "attempt to get argmax of an empty sequence")
  | x :: rest =>
      if PrimFloat.is_nan x then Ok 0 else Ok (argmax_from rest x 0 1)
  end.

(** [a[i]] for a non-negative index. *)
Definition item (a : list float) (i : nat) : result float :=
  match nth_error a i with
  | Some x => Ok x
  | None => Raise (IndexError i (length a))
  end.

End Np.

(** ** The window *)

(** What [statusBar.showMessage] is called with; an error message carries
    the exception whose text the source interpolates. *)
Inductive message : Type :=
| ErrorInDataCallback (e : exn)
| ErrorUpdatingPlot (e : exn)
| ErrorUpdatingDataDisplay (e : exn)
| MeasurementStarted
| FailedToStartMeasurement
| NoDeviceConnected
| ErrorStartingMeasurement (e : exn)
| DataSavedTo (filename : string)
| ErrorSavingData (e : exn)
| DataLoadedFrom (filename : string)
| ErrorLoadingData (e : exn)
| NoDataToAnalyze
| AnalysisError (e : exn).

(** The method objects of [pspymethods], with the fields the program
    assigns.  The SDK is not part of the repository: its constructors
    [DPV()], [CV()] and [SWV()] are taken to return a fresh method object,
    as the program expects. *)
Inductive method : Type :=
| DPV (e_begin e_end e_step pulse_height pulse_width scan_rate : float)
| CV (e_begin e_vertex1 e_vertex2 e_step scan_rate : float) (n_scans : Z)
| SWV (e_begin e_end e_step e_amplitude frequency : float).

(** The instrument manager of the SDK, seen from the window: whether it is
    connected, and whether [measure] hands back a measurement for a
    method (it returns [None] otherwise). *)
Record instrument_manager : Type := {
  is_connected : bool;
  measure : method -> bool
}.

(** One block appended to the results panel by the analysis. *)
Record analysis_results : Type := {
  peak_current : float;
  peak_voltage : float;
  data_points : nat
}.

(** The attributes of [ElectrochemicalApp] that the handlers read or
    write.  [param_widgets] holds, per technique, what [get_values]
    returns: the current value of every spin box. *)
Record app : Type := {
  current_data : dict (list float);
  technique_combo : string;
  param_widgets : dict (dict float);
  manager : instrument_manager;
  statusBar : option message;
  ax : list (list float * list float);
  data_text : list (float * float);
  results_text : list analysis_results
}.

Definition set_current_data (d : dict (list float)) (w : app) : app :=
  {| current_data := d; technique_combo := technique_combo w;
     param_widgets := param_widgets w; manager := manager w;
     statusBar := statusBar w; ax := ax w; data_text := data_text w;
     results_text := results_text w |}.

Definition showMessage (m : message) (w : app) : app :=
  {| current_data := current_data w; technique_combo := technique_combo w;
     param_widgets := param_widgets w; manager := manager w;
     statusBar := Some m; ax := ax w; data_text := data_text w;
     results_text := results_text w |}.

Definition set_ax (lines : list (list float * list float)) (w : app) : app :=
  {| current_data := current_data w; technique_combo := technique_combo w;
     param_widgets := param_widgets w; manager := manager w;
     statusBar := statusBar w; ax := lines; data_text := data_text w;
     results_text := results_text w |}.

Definition setText (rows : list (float * float)) (w : app) : app :=
  {| current_data := current_data w; technique_combo := technique_combo w;
     param_widgets := param_widgets w; manager := manager w;
     statusBar := statusBar w; ax := ax w; data_text := rows;
     results_text := results_text w |}.

Definition append_results (r : analysis_results) (w : app) : app :=
  {| current_data := current_data w; technique_combo := technique_combo w;
     param_widgets := param_widgets w; manager := manager w;
     statusBar := statusBar w; ax := ax w; data_text := data_text w;
     results_text := results_text w ++ [r] |}.

(** The store created by [__init__] and by every measurement start. *)
Definition empty_data : dict (list float) :=
  [("voltage", []); ("current", [])].

(** *** Sample sink *)

(** [self.current_data[k].append(value)]: the list is changed in place. *)
Definition append_to (k : string) (value : float) (d : dict (list float))
  : result (dict (list float)) :=
  let! l := subscript d k in Ok (dict_set k (l ++ [value]) d).

(** The [for type, value in new_data.items()] loop.  The lists are
    mutated as the loop goes, so an exception leaves the store as the
    earlier iterations made it: the store is returned on both exits. *)
Fixpoint update_data_storage (new_data : dict float) (d : dict (list float))
  : dict (list float) * option exn :=
  match new_data with
  | [] => (d, None)
  | (type, value) :: rest =>
      if str_in "potential" (lower type) then
        match append_to "voltage" value d with
        | Ok d' => update_data_storage rest d'
        | Raise e => (d, Some e)
        end
      else if str_in "current" (lower type) then
        match append_to "current" value d with
        | Ok d' => update_data_storage rest d'
        | Raise e => (d, Some e)
        end
      else update_data_storage rest d
  end.

(** [ax.plot(x, y)]: one line, or [ValueError] when the lengths differ;
    its text names both shapes. *)
Definition plot (x y : list float) : result (list float * list float) :=
  if Nat.eqb (length x) (length y) then Ok (x, y)
  else Raise (ValueError
                ("x and y must have same first dimension, but have shapes "
                 ++ Np.shape x ++ " and " ++ Np.shape y)%string).

Definition update_plot (w : app) : app :=
  let w := set_ax [] w in
  match (let! x := subscript (current_data w) "voltage" in
         let! y := subscript (current_data w) "current" in
         plot x y) with
  | Ok line => set_ax [line] w
  | Raise e => showMessage (ErrorUpdatingPlot e) w
  end.

Definition update_data_display (w : app) : app :=
  match (let! v := subscript (current_data w) "voltage" in
         let! i := subscript (current_data w) "current" in
         Ok (combine v i)) with
  | Ok rows => setText rows w
  | Raise e => showMessage (ErrorUpdatingDataDisplay e) w
  end.

Definition new_data_callback (new_data : dict float) (w : app) : app :=
  match update_data_storage new_data (current_data w) with
  | (d, None) => update_data_display (update_plot (set_current_data d w))
  | (d, Some e) => showMessage (ErrorInDataCallback e) (set_current_data d w)
  end.

(** *** Technique configuration *)

(** A number as the preset table writes it: [1] is an [int], [1.0] a
    [float]. *)
Inductive number : Type :=
| PyInt (z : Z)
| PyFloat (f : float).

(** [(min_val, max_val, default, step)]. *)
Definition bounds : Type := number * number * number * number.

#[local] Set Warnings "-inexact-float".

(** The table [parameters] of [create_parameter_groups]. *)
Definition parameters : dict (dict bounds) :=
  [ ("DPV",
     [ ("Start Potential (V)", (PyFloat (-2.0), PyFloat 2.0, PyFloat (-0.5), PyFloat 0.1));
       ("End Potential (V)", (PyFloat (-2.0), PyFloat 2.0, PyFloat 0.5, PyFloat 0.1));
       ("Step Potential (V)", (PyFloat 0.001, PyFloat 0.1, PyFloat 0.005, PyFloat 0.001));
       ("Pulse Amplitude (V)", (PyFloat 0.001, PyFloat 0.25, PyFloat 0.05, PyFloat 0.001));
       ("Pulse Width (s)", (PyFloat 0.001, PyFloat 1.0, PyFloat 0.05, PyFloat 0.001));
       ("Scan Rate (V/s)", (PyFloat 0.01, PyFloat 1.0, PyFloat 0.05, PyFloat 0.01)) ]);
    ("CV",
     [ ("Start Potential (V)", (PyFloat (-2.0), PyFloat 2.0, PyFloat (-0.5), PyFloat 0.1));
       ("First Vertex Potential (V)", (PyFloat (-2.0), PyFloat 2.0, PyFloat 0.5, PyFloat 0.1));
       ("Second Vertex Potential (V)", (PyFloat (-2.0), PyFloat 2.0, PyFloat (-0.5), PyFloat 0.1));
       ("Step Potential (V)", (PyFloat 0.001, PyFloat 0.1, PyFloat 0.01, PyFloat 0.001));
       ("Scan Rate (V/s)", (PyFloat 0.01, PyFloat 10.0, PyFloat 0.1, PyFloat 0.01));
       ("Number of Scans", (PyInt 1, PyInt 10, PyInt 1, PyInt 1)) ]);
    ("SWV",
     [ ("Start Potential (V)", (PyFloat (-2.0), PyFloat 2.0, PyFloat (-0.5), PyFloat 0.1));
       ("End Potential (V)", (PyFloat (-2.0), PyFloat 2.0, PyFloat 0.5, PyFloat 0.1));
       ("Step Potential (V)", (PyFloat 0.001, PyFloat 0.1, PyFloat 0.004, PyFloat 0.001));
       ("Amplitude (V)", (PyFloat 0.001, PyFloat 0.25, PyFloat 0.02, PyFloat 0.001));
       ("Frequency (Hz)", (PyInt 1, PyInt 1000, PyInt 25, PyInt 1)) ]) ].

(** The lookup [parameters[technique]]; [param_widgets] has the same keys,
    so [param_widgets[technique]] fails on the same identifiers. *)
Definition get_preset (technique : string) : result (dict bounds) :=
  subscript parameters technique.

(** The [if technique == ...: ... elif ...] chain of [start_measurement]:
    the method object is created and its fields are assigned in source
    order, so the first absent key decides the [KeyError].  With no branch
    taken, [method] stays unbound ([None] here). *)
Definition build_method (technique : string) (params : dict float)
  : result (option method) :=
  if String.eqb technique "DPV" then
    let! e_begin := subscript params "Start Potential (V)" in
    let! e_end := subscript params "End Potential (V)" in
    let! e_step := subscript params "Step Potential (V)" in
    let! pulse_height := subscript params "Pulse Amplitude (V)" in
    let! pulse_width := subscript params "Pulse Width (s)" in
    let! scan_rate := subscript params "Scan Rate (V/s)" in
    Ok (Some (DPV e_begin e_end e_step pulse_height pulse_width scan_rate))
  else if String.eqb technique "CV" then
    let! e_begin := subscript params "Start Potential (V)" in
    let! e_vertex1 := subscript params "First Vertex Potential (V)" in
    let! e_vertex2 := subscript params "Second Vertex Potential (V)" in
    let! e_step := subscript params "Step Potential (V)" in
    let! scan_rate := subscript params "Scan Rate (V/s)" in
    let! scans := subscript params "Number of Scans" in
    let! n_scans := Py.int scans in
    Ok (Some (CV e_begin e_vertex1 e_vertex2 e_step scan_rate n_scans))
  else if String.eqb technique "SWV" then
    let! e_begin := subscript params "Start Potential (V)" in
    let! e_end := subscript params "End Potential (V)" in
    let! e_step := subscript params "Step Potential (V)" in
    let! e_amplitude := subscript params "Amplitude (V)" in
    let! frequency := subscript params "Frequency (Hz)" in
    Ok (Some (SWV e_begin e_end e_step e_amplitude frequency))
  else Ok None.

(** *** Measurement start *)

Definition start_measurement (w : app) : app :=
  let technique := technique_combo w in
  match (let! params := subscript (param_widgets w) technique in
         build_method technique params) with
  | Raise e => showMessage (ErrorStartingMeasurement e) w
  | Ok method =>
      (* Clear previous data *)
      let w := set_current_data empty_data w in
      (* Start measurement *)
      if is_connected (manager w) then
        match method with
        | None =>
            showMessage (ErrorStartingMeasurement (UnboundLocalError "method")) w
        | Some m =>
            if measure (manager w) m then showMessage MeasurementStarted w
            else showMessage FailedToStartMeasurement w
        end
      else showMessage NoDeviceConnected w
  end.

(** *** Analysis *)

Definition is_empty {A} (l : list A) : bool :=
  match l with [] => true | _ => false end.

(** The body of the [try] of [analyze_data]: [None] is the early
    [return] after "No data to analyze".  The [or] evaluates its second
    operand only when the voltage list is not empty. *)
Definition analysis (d : dict (list float)) : result (option analysis_results) :=
  let! voltage := subscript d "voltage" in
  if is_empty voltage then Ok None else
  let! current := subscript d "current" in
  if is_empty current then Ok None else
  let current_array := current in
  let voltage_array := voltage in
  let! peak_current := Np.max (Np.abs current_array) in
  let! i := Np.argmax (Np.abs current_array) in
  let! peak_voltage := Np.item voltage_array i in
  Ok (Some {| peak_current := peak_current; peak_voltage := peak_voltage;
              data_points := length current_array |}).

Definition analyze_data (w : app) : app :=
  match analysis (current_data w) with
  | Ok None => showMessage NoDataToAnalyze w
  | Ok (Some r) => append_results r w
  | Raise e => showMessage (AnalysisError e) w
  end.

(** ** pandas: the frame constructor and the CSV writer and reader

    The program hands the store to [pd.DataFrame], writes the frame with
    [to_csv(filename, index=False)] and reads a file back with
    [pd.read_csv(filename)] and [to_dict('list')].  The text layer is
    modelled on plain CSV: printable ASCII fields without quote
    characters, one record per line, lines ended by a line feed, every
    record with as many fields as the header.  Outside that fragment (quoted fields, ragged records,
    repeated or empty column names, columns that pandas does not type as
    float64) the functions below answer [None]: the behaviour of pandas
    there is left out of the model, not guessed.

    How pandas prints one float and how it converts a column of fields
    are parameters of the section. *)

Module Pd.

Definition LF : ascii := ascii_of_N 10.
Definition comma : ascii := ascii_of_N 44.
Definition space : ascii := ascii_of_N 32.

Fixpoint forallb_string (p : ascii -> bool) (s : string) : bool :=
  match s with
  | EmptyString => true
  | String c s' => p c && forallb_string p s'
  end.

Definition nonempty (s : string) : bool :=
  match s with EmptyString => false | _ => true end.

(** A character of a field that needs no quoting. *)
Definition plain_char (c : ascii) : bool :=
  let n := N_of_ascii c in
  ((32 <=? n) && (n <=? 126) && negb (n =? 34) && negb (n =? 44))%N.

Definition plain_field (s : string) : bool := forallb_string plain_char s.

(** A character of a file of plain CSV. *)
Definition readable (c : ascii) : bool :=
  Ascii.eqb c LF || Ascii.eqb c comma || plain_char c.

(** [s] has no occurrence of [sep]. *)
Definition free_of (sep : ascii) (s : string) : bool :=
  forallb_string (fun c => negb (Ascii.eqb c sep)) s.

Fixpoint distinct (names : list string) : bool :=
  match names with
  | [] => true
  | n :: rest => negb (existsb (String.eqb n) rest) && distinct rest
  end.

(** A header the model covers: at least one column, names plain, not
    empty and pairwise different. *)
Definition well_named (names : list string) : bool :=
  negb (is_empty names)
  && forallb (fun n => nonempty n && plain_field n) names
  && distinct names.

(** The pieces of [s] between the occurrences of [sep]. *)
Fixpoint split_on (sep : ascii) (s : string) : list string :=
  match s with
  | EmptyString => [EmptyString]
  | String c s' =>
      if Ascii.eqb c sep then EmptyString :: split_on sep s'
      else match split_on sep s' with
           | piece :: pieces => String c piece :: pieces
           | [] => [String c EmptyString]
           end
  end.

(** A record on one line: its fields, separated by commas. *)
Definition line_of (fields : list string) : string :=
  String.concat (String comma EmptyString) fields.

Definition record_text (fields : list string) : string :=
  String.append (line_of fields) (String LF EmptyString).

(** The records of a file, one per line. *)
Definition file_text (records : list (list string)) : string :=
  fold_right String.append EmptyString (map record_text records).

(** A line of spaces only (or of nothing). *)
Definition blank (s : string) : bool := forallb_string (Ascii.eqb space) s.

(** A record that does not print as a blank line: a lone field is
    written bare only when it shows. *)
Definition visible (fields : list string) : bool :=
  match fields with
  | [field] => negb (blank field)
  | _ => true
  end.

Definition heads {A} (xss : list (list A)) : list A :=
  flat_map (fun xs => match xs with x :: _ => [x] | [] => [] end) xss.

Definition tails {A} (xss : list (list A)) : list (list A) :=
  map (fun xs => match xs with _ :: xs' => xs' | [] => [] end) xss.

(** The first [n] cross-sections of a list of lists: the rows of a
    list of columns, or the columns of a list of rows. *)
Fixpoint transpose {A} (n : nat) (xss : list (list A)) : list (list A) :=
  match n with
  | O => []
  | S n' => heads xss :: transpose n' (tails xss)
  end.

Fixpoint sequence {A} (l : list (option A)) : option (list A) :=
  match l with
  | [] => Some []
  | Some a :: l' => option_map (cons a) (sequence l')
  | None :: _ => None
  end.

(** A frame: named columns of one length. *)
Definition frame : Type := dict (list float).

Definition nrows (df : frame) : nat :=
  match df with
  | [] => 0
  | (_, col) :: _ => length col
  end.

(** [pd.DataFrame(data)] for a dict of lists. *)
Definition DataFrame (data : dict (list float)) : result frame :=
  if forallb (fun kc => Nat.eqb (length (snd kc)) (nrows data)) data
  then Ok data
  else Raise (ValueError "All arrays must be of the same length").

(** [df.to_dict('list')]. *)
Definition to_dict_list (df : frame) : dict (list float) := df.

(** The file system as the two calls see it. *)
Record filesystem : Type := {
  files : gmap string string;
  writable : string -> bool
}.

Definition write (path text : string) (fs : filesystem) : filesystem :=
  {| files := <[ path := text ]> (files fs); writable := writable fs |}.

Section Codec.

(** The text [to_csv] writes for one float (empty for NaN). *)
Variable format_float : float -> string.

(** The values [read_csv] gives a column of fields when it types the
    column float64; [None] when it types it otherwise. *)
Variable parse_float64 : list string -> option (list float).

Definition csv_cells (df : frame) : list (list string) :=
  map (map format_float) (transpose (nrows df) (map snd df)).

(** The text of [to_csv(index=False)]: the header, then one record
    per row. *)
Definition csv_text (df : frame) : option string :=
  let names := keys df in
  let cells := csv_cells df in
  if well_named names
     && forallb (forallb plain_field) cells
     && forallb visible (names :: cells)
  then Some (file_text (names :: cells))
  else None.

(** The text of the frame of a trace: the header "voltage,current",
    then one record per index. *)
Definition trace_text (v c : list float) : string :=
  file_text (["voltage"; "current"]
             :: map (fun p => [format_float (fst p); format_float (snd p)])
                    (combine v c)).

Definition to_csv (df : frame) (path : string) (fs : filesystem)
  : option (result filesystem) :=
  if writable fs path then
    match csv_text df with
    | Some text => Some (Ok (write path text fs))
    | None => None
    end
  else Some (Raise (OSError path)).

(** A column of a file without records is an empty list. *)
Definition parse_column (fields : list string) : option (list float) :=
  match fields with
  | [] => Some []
  | _ => parse_float64 fields
  end.

(** [pd.read_csv] on the text of a file.  Empty lines are skipped; the
    first line left names the columns. *)
Definition parse_csv (text : string) : option (result frame) :=
  if negb (forallb_string readable text) then None
  else
    let lines := List.filter nonempty (split_on LF text) in
    if existsb blank lines then None
    else
      match lines with
      | [] => Some (Raise EmptyDataError)
      | header :: body =>
          let names := split_on comma header in
          let records := map (split_on comma) body in
          if well_named names
             && forallb (fun r => Nat.eqb (length r) (length names)) records
          then
            match sequence (map parse_column
                                (transpose (length names) records)) with
            | Some cols => Some (Ok (combine names cols))
            | None => None
            end
          else None
      end.

Definition read_csv (path : string) (fs : filesystem)
  : option (result frame) :=
  match files fs !! path with
  | Some text => parse_csv text
  | None => Some (Raise (FileNotFoundError path))
  end.

End Codec.

End Pd.

(** *** Persistence *)

Section Persistence.

Variable format_float : float -> string.
Variable parse_float64 : list string -> option (list float).

(** [save_data]; [filename] is what the file dialog returned (empty
    when it was cancelled).  The result is the window and the file
    system after the call. *)
Definition save_data (filename : string) (w : app) (fs : Pd.filesystem)
  : option (app * Pd.filesystem) :=
  if Pd.nonempty filename then
    match Pd.DataFrame (current_data w) with
    | Raise e => Some (showMessage (ErrorSavingData e) w, fs)
    | Ok df =>
        match Pd.to_csv format_float df filename fs with
        | Some (Ok fs') => Some (showMessage (DataSavedTo filename) w, fs')
        | Some (Raise e) => Some (showMessage (ErrorSavingData e) w, fs)
        | None => None
        end
    end
  else Some (w, fs).

(** [open_data]. *)
Definition open_data (filename : string) (w : app) (fs : Pd.filesystem)
  : option app :=
  if Pd.nonempty filename then
    match Pd.read_csv parse_float64 filename fs with
    | Some (Ok df) =>
        let w := set_current_data (Pd.to_dict_list df) w in
        let w := update_plot w in
        let w := update_data_display w in
        Some (showMessage (DataLoadedFrom filename) w)
    | Some (Raise e) => Some (showMessage (ErrorLoadingData e) w)
    | None => None
    end
  else Some w.

End Persistence.

(** ** Parameter groups and the connect button *)

(** The items of the technique combo box. *)
Definition techniques : list string := ["DPV"; "CV"; "SWV"].

(** [ParameterGroup.get_values] for a group built from the table
    [parameters]: [__init__] makes one spin box per parameter, in the order
    of the table, and [get_values] maps every parameter to the value of its
    spin box.  [value] is that value, as Qt keeps it. *)
Definition get_values (parameters : dict bounds) (value : string -> float)
  : dict float :=
  map (fun pb => (fst pb, value (fst pb))) parameters.

(** [self.param_widgets] as [create_parameter_groups] fills it: one group
    per technique of the table, seen through [get_values]. *)
Definition create_parameter_groups (value : string -> string -> float)
  : dict (dict float) :=
  map (fun tp => (fst tp, get_values (snd tp) (value (fst tp)))) parameters.

(** The guards of the sink: the [if] that stores a sample as a potential,
    and the [elif] that stores it as a current. *)
Definition to_voltage (sample : string * float) : bool :=
  str_in "potential" (lower (fst sample)).

Definition to_current (sample : string * float) : bool :=
  negb (str_in "potential" (lower (fst sample)))
  && str_in "current" (lower (fst sample)).

(** The callbacks of one measurement, in order of arrival. *)
Definition deliver (batches : list (dict float)) (w : app) : app :=
  fold_left (fun w new_data => new_data_callback new_data w) batches w.

(** What [connect_device] shows in the status bar. *)
Inductive connection_message : Type :=
| ConnectedTo (device : string)
| FailedToConnectToDevice
| NoDevicesFound
| DisconnectedFromDevice
| ErrorDisconnecting.

(** The widgets [connect_device] reads or writes: the text of the connect
    button, whether the start button is enabled, and the message it last
    showed. *)
Record connection : Type := {
  connect_btn : string;
  start_btn : bool;
  connection_status : option connection_message
}.

(** What the instrument manager answers during one click: the devices it
    discovers, whether [connect] to a device succeeds and whether
    [disconnect] does. *)
Record manager_answers : Type := {
  discover_instruments : list string;
  connect : string -> bool;
  disconnect : bool
}.

(** The window as [setup_ui] leaves it: buttons are enabled when
    created. *)
Definition initial_connection : connection :=
  {| connect_btn := "Connect Device"; start_btn := true;
     connection_status := None |}.

(** [connect_device], the second definition of the class body, which is
    the one the button is bound to.  The three calls of the manager are
    taken to return (the answers of [sdk]); the handler of an exception
    raised by one of them only shows "Connection error" and is left
    out. *)
Definition connect_device (sdk : manager_answers) (c : connection)
  : connection :=
  if String.eqb (connect_btn c) "Connect Device" then
    match discover_instruments sdk with
    | device :: _ =>
        if connect sdk device then
          {| connect_btn := "Disconnect"; start_btn := true;
             connection_status := Some (ConnectedTo device) |}
        else
          {| connect_btn := connect_btn c; start_btn := start_btn c;
             connection_status := Some FailedToConnectToDevice |}
    | [] =>
        {| connect_btn := connect_btn c; start_btn := start_btn c;
           connection_status := Some NoDevicesFound |}
    end
  else if disconnect sdk then
    {| connect_btn := "Connect Device"; start_btn := false;
       connection_status := Some DisconnectedFromDevice |}
  else
    {| connect_btn := connect_btn c; start_btn := start_btn c;
       connection_status := Some ErrorDisconnecting |}.

(** A sequence of clicks on the connect button. *)
Definition clicks (answers : list manager_answers) (c : connection)
  : connection :=
  fold_left (fun c sdk => connect_device sdk c) answers c.

(** The three situations of the two buttons: no connection made yet,
    connected, and disconnected after a connection. *)
Definition connection_invariant (c : connection) : Prop :=
  (connect_btn c = "Connect Device" /\ start_btn c = true /\
   (connection_status c = None \/
    connection_status c = Some NoDevicesFound \/
    connection_status c = Some FailedToConnectToDevice)) \/
  (connect_btn c = "Disconnect" /\ start_btn c = true /\
   ((exists device, connection_status c = Some (ConnectedTo device)) \/
    connection_status c = Some ErrorDisconnecting)) \/
  (connect_btn c = "Connect Device" /\ start_btn c = false /\
   (connection_status c = Some DisconnectedFromDevice \/
    connection_status c = Some NoDevicesFound \/
    connection_status c = Some FailedToConnectToDevice)).

(** ** Example data *)

(** A window on the technique [technique] whose spin boxes hold
    [params], with store [d] and the instrument in state [connected]. *)
Definition window (technique : string) (params : dict float)
  (d : dict (list float)) (connected : bool) : app :=
  {| current_data := d;
     technique_combo := technique;
     param_widgets := [(technique, params)];
     manager := {| is_connected := connected; measure := fun _ => true |};
     statusBar := None; ax := []; data_text := []; results_text := [] |}.

Definition cv_values : dict float :=
  [ ("Start Potential (V)", (-0.5)%float);
    ("First Vertex Potential (V)", 0.5%float);
    ("Second Vertex Potential (V)", (-0.5)%float);
    ("Step Potential (V)", 0.01%float);
    ("Scan Rate (V/s)", 0.1%float);
    ("Number of Scans", 2.75%float) ].

(** A store that was loaded from a file with a current column only. *)
Definition current_only : dict (list float) := [("current", [1.0e-6%float])].

Definition recorded : dict (list float) :=
  [("voltage", [(-0.5)%float; (-0.4)%float]);
   ("current", [1.2e-6%float; 1.5e-6%float])].

(** The printing and the conversion of pandas on the values of the
    scenario ([-0.5], [-0.4], [0.5], [1.2e-06], [1.5e-06] and NaN, which is
    written as an empty field). *)
Definition scenario_format (x : float) : string :=
  if PrimFloat.eqb x (-0.5) then "-0.5"
  else if PrimFloat.eqb x (-0.4) then "-0.4"
  else if PrimFloat.eqb x 0.5 then "0.5"
  else if PrimFloat.eqb x 1.2e-6 then "1.2e-06"
  else if PrimFloat.eqb x 1.5e-6 then "1.5e-06"
  else "".

Definition scenario_field (s : string) : option float :=
  if String.eqb s "-0.5" then Some (-0.5)%float
  else if String.eqb s "-0.4" then Some (-0.4)%float
  else if String.eqb s "0.5" then Some 0.5%float
  else if String.eqb s "1.2e-06" then Some 1.2e-6%float
  else if String.eqb s "1.5e-06" then Some 1.5e-6%float
  else if String.eqb s "" then Some nan
  else None.

Definition scenario_parse (fields : list string) : option (list float) :=
  Pd.sequence (map scenario_field fields).

(** A file system with the given files, where every path can be written
    but those under "/proc/". *)
Definition disk (entries : list (string * string)) : Pd.filesystem :=
  {| Pd.files := list_to_map entries;
     Pd.writable := fun path => negb (String.prefix "/proc/" path) |}.

Definition text_lines (lines : list string) : string :=
  fold_right (fun l rest => String.append l (String Pd.LF rest)) EmptyString lines.


(** A file with two columns under other names. *)
Definition other_columns : Pd.filesystem :=
  disk [("run.csv", text_lines ["time,signal"; "0.5,-0.5"])].

Definition sweep : dict (list float) :=
  [("voltage", [(-0.5)%float; (-0.4)%float; 0.5%float]);
   ("current", [1.2e-6%float; (-1.5e-6)%float; 0.9e-6%float])].

(** Spin boxes that hold 0.5 everywhere but for the number of scans and
    the frequency, and a connected window built on them. *)
Definition default_value (technique param : string) : float :=
  if String.eqb param "Number of Scans" then 3%float
  else if String.eqb param "Frequency (Hz)" then 25%float
  else 0.5%float.

Definition built_window : app :=
  {| current_data := recorded;
     technique_combo := "SWV";
     param_widgets := create_parameter_groups default_value;
     manager := {| is_connected := true; measure := fun _ => true |};
     statusBar := None; ax := []; data_text := []; results_text := [] |}.

(** A store with a third column, as a file with a time column gives. *)
Definition timed : dict (list float) :=
  [("time", [0.5%float; (-0.5)%float]);
   ("voltage", [(-0.5)%float; (-0.4)%float]);
   ("current", [1.2e-6%float; 1.5e-6%float])].

(** * Properties *)

(** ** Dictionaries *)

Lemma dict_get_set_eq {V} (k : string) (v : V) (d : dict V) :
  dict_get k (dict_set k v d) = Some v.
Proof.
  induction d as [|[k' v'] d IH]; simpl.
  - now rewrite String.eqb_refl.
  - destruct (String.eqb k' k) eqn:E; simpl.
    + now rewrite String.eqb_refl.
    + now rewrite E.
Qed.

Lemma dict_get_set_ne {V} (k k' : string) (v : V) (d : dict V) :
  k <> k' -> dict_get k' (dict_set k v d) = dict_get k' d.
Proof.
  intros Hne. induction d as [|[k0 v0] d IH]; simpl.
  - destruct (String.eqb_spec k k'); congruence.
  - destruct (String.eqb_spec k0 k) as [->|Hk]; simpl.
    + destruct (String.eqb_spec k k'); congruence.
    + destruct (String.eqb_spec k0 k'); congruence.
Qed.

Lemma subscript_Ok {V} (d : dict V) (k : string) (v : V) :
  dict_get k d = Some v -> subscript d k = Ok v.
Proof. unfold subscript. now intros ->. Qed.

Lemma subscript_Raise {V} (d : dict V) (k : string) :
  dict_get k d = None -> subscript d k = Raise (KeyError k).
Proof. unfold subscript. now intros ->. Qed.

(** ** Sample sink *)

Lemma current_data_refresh (w : app) :
  current_data (update_data_display (update_plot w)) = current_data w.
Proof.
  unfold update_data_display, update_plot.
  repeat (match goal with
          | |- context [match ?r with Ok _ => _ | Raise _ => _ end] =>
              destruct r
          end; simpl); reflexivity.
Qed.

Lemma append_to_Ok (k : string) (value : float) (d : dict (list float))
  (l : list float) :
  dict_get k d = Some l -> append_to k value d = Ok (dict_set k (l ++ [value]) d).
Proof. intros H. unfold append_to. now rewrite (subscript_Ok _ _ _ H). Qed.

Lemma append_to_Raise (k : string) (value : float) (d : dict (list float)) :
  dict_get k d = None -> append_to k value d = Raise (KeyError k).
Proof. intros H. unfold append_to. now rewrite (subscript_Raise _ _ H). Qed.

(** The loop over a batch is the loop over its first part followed, when
    that part raised nothing, by the loop over the rest. *)
Lemma update_data_storage_app (pre rest : dict float) (d : dict (list float)) :
  update_data_storage (pre ++ rest) d =
  match update_data_storage pre d with
  | (d1, None) => update_data_storage rest d1
  | (d1, Some e) => (d1, Some e)
  end.
Proof.
  revert d. induction pre as [|[type value] pre IH]; intros d; simpl.
  - reflexivity.
  - destruct (str_in "potential" (lower type)).
    + destruct (append_to "voltage" value d); [apply IH | reflexivity].
    + destruct (str_in "current" (lower type)).
      * destruct (append_to "current" value d); [apply IH | reflexivity].
      * apply IH.
Qed.

(** On a store that has both sequences the loop raises nothing: in batch
    order, the values labelled "potential" go to the voltage sequence and
    the values labelled "current" but not "potential" to the current
    sequence. *)
Lemma update_data_storage_both (new_data : dict float)
  (d : dict (list float)) (v c : list float) :
  dict_get "voltage" d = Some v ->
  dict_get "current" d = Some c ->
  exists d',
    update_data_storage new_data d = (d', None) /\
    dict_get "voltage" d'
    = Some (v ++ map snd
                   (List.filter (fun s => str_in "potential" (lower (fst s)))
                                new_data)) /\
    dict_get "current" d'
    = Some (c ++ map snd
                   (List.filter
                      (fun s => negb (str_in "potential" (lower (fst s)))
                                && str_in "current" (lower (fst s)))
                      new_data)).
Proof.
  revert d v c. induction new_data as [|[type value] rest IH];
    intros d v c Hv Hc; simpl.
  - exists d. now rewrite !app_nil_r.
  - destruct (str_in "potential" (lower type)); simpl.
    + rewrite (append_to_Ok _ _ _ _ Hv).
      destruct (IH (dict_set "voltage" (v ++ [value]) d) (v ++ [value]) c)
        as (d' & Hrun & Hv' & Hc').
      * apply dict_get_set_eq.
      * now rewrite dict_get_set_ne by discriminate.
      * exists d'. rewrite <- app_assoc in Hv'. auto.
    + destruct (str_in "current" (lower type)); simpl.
      * rewrite (append_to_Ok _ _ _ _ Hc).
        destruct (IH (dict_set "current" (c ++ [value]) d) v (c ++ [value]))
          as (d' & Hrun & Hv' & Hc').
        -- now rewrite dict_get_set_ne by discriminate.
        -- apply dict_get_set_eq.
        -- exists d'. rewrite <- app_assoc in Hc'. auto.
      * now apply IH.
Qed.

Lemma dict_set_keys {V} (k : string) (v x : V) (d : dict V) :
  dict_get k d = Some x -> keys (dict_set k v d) = keys d.
Proof.
  unfold keys. induction d as [|[k' v'] d IH]; simpl; [discriminate|].
  destruct (String.eqb_spec k' k) as [->|Hk]; simpl; [reflexivity|].
  intros H. now rewrite IH.
Qed.

(** An append changes a list in place: the callback never adds, drops or
    reorders the columns of the store, so a store of shape
    [{'voltage': ..., 'current': ...}] keeps that shape. *)
Lemma new_data_callback_keys (new_data : dict float) (w : app) :
  keys (current_data (new_data_callback new_data w)) = keys (current_data w).
Proof.
  unfold new_data_callback.
  assert (H : forall d, keys (fst (update_data_storage new_data d)) = keys d).
  { induction new_data as [|[type value] rest IH]; intros d; simpl;
      [reflexivity|].
    unfold append_to, subscript.
    destruct (str_in "potential" (lower type)).
    - destruct (dict_get "voltage" d) eqn:E; cbn [Py.bind]; [|reflexivity].
      now rewrite IH, (dict_set_keys _ _ _ _ E).
    - destruct (str_in "current" (lower type)); [|apply IH].
      destruct (dict_get "current" d) eqn:E; cbn [Py.bind]; [|reflexivity].
      now rewrite IH, (dict_set_keys _ _ _ _ E). }
  specialize (H (current_data w)).
  destruct (update_data_storage new_data (current_data w)) as [d [e|]];
    [exact H|].
  now rewrite current_data_refresh.
Qed.

(** The scenario of the specification: four samples, one per call. *)
Example sink_scenario :
  let w0 := window "CV" cv_values empty_data true in
  let w4 :=
    new_data_callback [("I_current", 1.5e-6%float)]
      (new_data_callback [("E_potential", (-0.4)%float)]
         (new_data_callback [("I_current", 1.2e-6%float)]
            (new_data_callback [("E_potential", (-0.5)%float)] w0))) in
  current_data w4 =
  [("voltage", [(-0.5)%float; (-0.4)%float]);
   ("current", [1.2e-6%float; 1.5e-6%float])].
Proof. reflexivity. Qed.

(** C1, as amended.  One sample delivered to a store that has both
    sequences: a label that contains "potential" (in any case) appends the
    value to the voltage sequence and leaves the current sequence; a label
    that contains "current" and not "potential" appends to the current
    sequence and leaves the voltage sequence; a label with neither leaves
    the store as it was. *)
Theorem new_data_callback_classifies
  (w : app) (label : string) (value : float) (v c : list float) :
  dict_get "voltage" (current_data w) = Some v ->
  dict_get "current" (current_data w) = Some c ->
  let w' := new_data_callback [(label, value)] w in
  (str_in "potential" (lower label) = true ->
     dict_get "voltage" (current_data w') = Some (v ++ [value]) /\
     dict_get "current" (current_data w') = Some c) /\
  (str_in "potential" (lower label) = false ->
   str_in "current" (lower label) = true ->
     dict_get "voltage" (current_data w') = Some v /\
     dict_get "current" (current_data w') = Some (c ++ [value])) /\
  (str_in "potential" (lower label) = false ->
   str_in "current" (lower label) = false ->
     current_data w' = current_data w).
Proof.
  intros Hv Hc w'. subst w'. unfold new_data_callback. cbn [update_data_storage].
  split; [|split].
  - intros ->. rewrite (append_to_Ok _ _ _ _ Hv), current_data_refresh.
    simpl. split; [apply dict_get_set_eq|].
    rewrite dict_get_set_ne by discriminate. exact Hc.
  - intros -> ->. rewrite (append_to_Ok _ _ _ _ Hc), current_data_refresh.
    simpl. split; [|apply dict_get_set_eq].
    rewrite dict_get_set_ne by discriminate. exact Hv.
  - intros -> ->. now rewrite current_data_refresh.
Qed.

Lemma new_data_callback_classifies_witness :
  let w := window "CV" cv_values empty_data true in
  let w' := new_data_callback [("WE Current", 1.2e-6%float)] w in
  dict_get "voltage" (current_data w') = Some [] /\
  dict_get "current" (current_data w') = Some [1.2e-6%float].
Proof.
  intros w w'.
  exact (proj1 (proj2 (new_data_callback_classifies
                         w "WE Current" 1.2e-6%float [] []
                         eq_refl eq_refl))
               eq_refl eq_refl).
Defined.

(** C1 as stated fails: a label that contains "current" is not always
    appended to the current sequence.  "Potential/Current" contains both
    words, and its value goes to the voltage sequence only. *)
Lemma current_label_not_always_current :
  ~ (forall (w : app) (label : string) (value : float) (v c : list float),
       dict_get "voltage" (current_data w) = Some v ->
       dict_get "current" (current_data w) = Some c ->
       str_in "current" (lower label) = true ->
       let w' := new_data_callback [(label, value)] w in
       dict_get "current" (current_data w') = Some (c ++ [value]) /\
       dict_get "voltage" (current_data w') = Some v).
Proof.
  intros H.
  specialize (H (window "CV" cv_values empty_data true)
                "Potential/Current" 1.5%float [] [] eq_refl eq_refl eq_refl).
  destruct H as [H _]. vm_compute in H. discriminate H.
Qed.

(** C3, as amended.  A sample whose label contains both "potential" and
    "current" is never appended to the current sequence, which is left
    as it was; on a store that has a voltage sequence the value is
    appended once, to that sequence; on a store that has none nothing is
    appended and the [KeyError] is shown as "Error in data callback". *)
Theorem both_words_append_to_voltage_only
  (w : app) (label : string) (value : float) :
  str_in "potential" (lower label) = true ->
  str_in "current" (lower label) = true ->
  let w' := new_data_callback [(label, value)] w in
  dict_get "current" (current_data w') = dict_get "current" (current_data w) /\
  match dict_get "voltage" (current_data w) with
  | Some v => dict_get "voltage" (current_data w') = Some (v ++ [value])
  | None =>
      current_data w' = current_data w /\
      statusBar w' = Some (ErrorInDataCallback (KeyError "voltage"))
  end.
Proof.
  intros Hp _ w'. subst w'. unfold new_data_callback.
  cbn [update_data_storage]. rewrite Hp.
  destruct (dict_get "voltage" (current_data w)) as [v|] eqn:Hv.
  - rewrite (append_to_Ok _ _ _ _ Hv), current_data_refresh. simpl. split.
    + now rewrite dict_get_set_ne by discriminate.
    + apply dict_get_set_eq.
  - rewrite (append_to_Raise _ _ _ Hv). simpl. auto.
Qed.

Lemma both_words_append_to_voltage_only_witness :
  let w := window "CV" cv_values [("voltage", [0.5%float]); ("current", [])] true in
  let w' := new_data_callback [("current at potential", (-0.4)%float)] w in
  let u := window "CV" cv_values current_only true in
  let u' := new_data_callback [("current at potential", (-0.4)%float)] u in
  (dict_get "voltage" (current_data w') = Some [0.5%float; (-0.4)%float] /\
   dict_get "current" (current_data w') = Some []) /\
  (current_data u' = current_only /\
   statusBar u' = Some (ErrorInDataCallback (KeyError "voltage"))).
Proof.
  intros w w' u u'. split.
  - destruct (both_words_append_to_voltage_only
                w "current at potential" (-0.4)%float eq_refl eq_refl)
      as [Hc Hv].
    split; [exact Hv|exact Hc].
  - exact (proj2 (both_words_append_to_voltage_only
                    u "current at potential" (-0.4)%float eq_refl eq_refl)).
Defined.

(** C3 as stated fails: with both words in the label the value is not
    appended to both sequences. *)
Lemma no_double_append :
  ~ (forall (w : app) (label : string) (value : float) (v c : list float),
       dict_get "voltage" (current_data w) = Some v ->
       dict_get "current" (current_data w) = Some c ->
       str_in "potential" (lower label) = true ->
       str_in "current" (lower label) = true ->
       let w' := new_data_callback [(label, value)] w in
       dict_get "voltage" (current_data w') = Some (v ++ [value]) /\
       dict_get "current" (current_data w') = Some (c ++ [value])).
Proof.
  intros H.
  specialize (H (window "CV" cv_values empty_data true)
                "potential_current" 0.25%float [] []
                eq_refl eq_refl eq_refl eq_refl).
  destruct H as [_ H]. vm_compute in H. discriminate H.
Qed.

(** The only exception the loop can raise is the [KeyError] of a store
    that lacks the sequence the sample belongs to. *)
Lemma update_data_storage_raises (new_data : dict float)
  (d d' : dict (list float)) (e : exn) :
  update_data_storage new_data d = (d', Some e) ->
  (e = KeyError "voltage" /\ dict_get "voltage" d' = None) \/
  (e = KeyError "current" /\ dict_get "current" d' = None).
Proof.
  revert d. induction new_data as [|[type value] rest IH]; intros d; simpl.
  - discriminate.
  - destruct (str_in "potential" (lower type)).
    + destruct (dict_get "voltage" d) as [l|] eqn:E.
      * rewrite (append_to_Ok _ _ _ _ E). apply IH.
      * rewrite (append_to_Raise _ _ _ E). intros [= <- <-]. now left.
    + destruct (str_in "current" (lower type)); [|apply IH].
      destruct (dict_get "current" d) as [l|] eqn:E.
      * rewrite (append_to_Ok _ _ _ _ E). apply IH.
      * rewrite (append_to_Raise _ _ _ E). intros [= <- <-]. now right.
Qed.

(** C7, as amended.  When a sample of a batch raises, the exception is
    turned into the status message "Error in data callback" and the
    callback returns; the samples before it stay appended, and neither the
    failing sample nor the samples after it in the batch are appended (the
    loop is left, and the plot and the data display are not refreshed). *)
Theorem new_data_callback_failure
  (w : app) (pre post : dict float) (type : string) (value : float)
  (d1 : dict (list float)) (e : exn) :
  update_data_storage pre (current_data w) = (d1, None) ->
  update_data_storage [(type, value)] d1 = (d1, Some e) ->
  new_data_callback (pre ++ (type, value) :: post) w
  = showMessage (ErrorInDataCallback e) (set_current_data d1 w).
Proof.
  intros Hpre Hbad. unfold new_data_callback.
  rewrite update_data_storage_app, Hpre.
  change ((type, value) :: post) with ([(type, value)] ++ post).
  rewrite update_data_storage_app, Hbad. reflexivity.
Qed.

Lemma new_data_callback_failure_witness :
  new_data_callback
    ([("WE current", 1.2e-6%float)]
       ++ ("WE potential", 0.5%float) :: [("AUX current", 1.5e-6%float)])
    (window "CV" cv_values current_only true)
  = showMessage (ErrorInDataCallback (KeyError "voltage"))
      (set_current_data [("current", [1.0e-6%float; 1.2e-6%float])]
         (window "CV" cv_values current_only true)).
Proof.
  exact (new_data_callback_failure
           (window "CV" cv_values current_only true)
           [("WE current", 1.2e-6%float)] [("AUX current", 1.5e-6%float)]
           "WE potential" 0.5%float
           [("current", [1.0e-6%float; 1.2e-6%float])] (KeyError "voltage")
           eq_refl eq_refl).
Defined.

(** C7 as stated fails: after a failing sample, a later sample of the same
    batch that would have been appended on its own is not appended. *)
Lemma samples_after_failure_dropped :
  let w := window "CV" cv_values current_only true in
  let batch := [("WE potential", 0.5%float); ("WE current", 1.2e-6%float)] in
  statusBar (new_data_callback batch w)
    = Some (ErrorInDataCallback (KeyError "voltage")) /\
  dict_get "current" (current_data (new_data_callback batch w))
    = Some [1.0e-6%float] /\
  dict_get "current" (current_data (new_data_callback batch w))
    <> Some [1.0e-6%float; 1.2e-6%float] /\
  dict_get "current"
    (current_data (new_data_callback [("WE current", 1.2e-6%float)] w))
    = Some [1.0e-6%float; 1.2e-6%float].
Proof. repeat split. discriminate. Qed.

(** ** Measurement start *)

(** C2, as amended.  When the spin boxes yield a method and the
    instrument is not connected, the call shows "No device connected" and
    raises nothing; the store is not left as it was: it is replaced by two
    empty sequences, because the reset comes before the connection
    test. *)
Theorem start_measurement_disconnected
  (w : app) (params : dict float) (m : option method) :
  dict_get (technique_combo w) (param_widgets w) = Some params ->
  build_method (technique_combo w) params = Ok m ->
  is_connected (manager w) = false ->
  start_measurement w
  = showMessage NoDeviceConnected (set_current_data empty_data w).
Proof.
  intros Hp Hm Hc. unfold start_measurement.
  rewrite (subscript_Ok _ _ _ Hp). cbn [Py.bind]. rewrite Hm.
  cbn [manager set_current_data]. rewrite Hc. reflexivity.
Qed.

Lemma start_measurement_disconnected_witness :
  start_measurement (window "CV" cv_values recorded false)
  = showMessage NoDeviceConnected
      (set_current_data empty_data (window "CV" cv_values recorded false)).
Proof.
  exact (start_measurement_disconnected
           (window "CV" cv_values recorded false) cv_values
           (Some (CV (-0.5) 0.5 (-0.5) 0.01 0.1 2))
           eq_refl eq_refl eq_refl).
Defined.

(** C2 as stated fails: a start requested while disconnected does not
    leave the store untouched. *)
Lemma disconnected_start_clears_store :
  let w := window "CV" cv_values recorded false in
  is_connected (manager w) = false /\
  statusBar (start_measurement w) = Some NoDeviceConnected /\
  current_data w = recorded /\
  current_data (start_measurement w) = empty_data /\
  current_data (start_measurement w) <> current_data w.
Proof. repeat split. discriminate. Qed.

(** ** Technique configuration *)

(** C8.  The preset of "CV" is the six declared parameters, in the order
    and with the bounds of the table, and the lookup of any technique
    other than "DPV", "CV" and "SWV" raises [KeyError]. *)
Theorem get_preset_spec :
  get_preset "CV" = Ok
    [ ("Start Potential (V)", (PyFloat (-2.0), PyFloat 2.0, PyFloat (-0.5), PyFloat 0.1));
      ("First Vertex Potential (V)", (PyFloat (-2.0), PyFloat 2.0, PyFloat 0.5, PyFloat 0.1));
      ("Second Vertex Potential (V)", (PyFloat (-2.0), PyFloat 2.0, PyFloat (-0.5), PyFloat 0.1));
      ("Step Potential (V)", (PyFloat 0.001, PyFloat 0.1, PyFloat 0.01, PyFloat 0.001));
      ("Scan Rate (V/s)", (PyFloat 0.01, PyFloat 10.0, PyFloat 0.1, PyFloat 0.01));
      ("Number of Scans", (PyInt 1, PyInt 10, PyInt 1, PyInt 1)) ] /\
  (forall technique : string,
     technique <> "DPV" -> technique <> "CV" -> technique <> "SWV" ->
     get_preset technique = Raise (KeyError technique)).
Proof.
  split; [reflexivity|].
  intros technique H1 H2 H3. unfold get_preset, subscript, parameters.
  cbn [dict_get].
  destruct (String.eqb_spec "DPV" technique); [congruence|].
  destruct (String.eqb_spec "CV" technique); [congruence|].
  destruct (String.eqb_spec "SWV" technique); [congruence|].
  reflexivity.
Qed.

Lemma get_preset_spec_witness :
  get_preset "XYZ" = Raise (KeyError "XYZ").
Proof.
  apply (proj2 get_preset_spec "XYZ"); discriminate.
Defined.

Lemma get_preset_known (technique : string) (preset : dict bounds) :
  get_preset technique = Ok preset ->
  technique = "DPV" \/ technique = "CV" \/ technique = "SWV".
Proof.
  unfold get_preset, subscript, parameters. cbn [dict_get].
  destruct (String.eqb_spec "DPV" technique); [auto|].
  destruct (String.eqb_spec "CV" technique); [auto|].
  destruct (String.eqb_spec "SWV" technique); [auto|].
  discriminate.
Qed.

(** [int] on a finite float is the integer part of its exact value. *)
Lemma int_of_spec_rounds_toward_zero (x : spec_float) (n : Z) :
  int_of_spec x = Ok n -> rounds_toward_zero x n.
Proof.
  destruct x as [s|s| |s m e]; simpl; try discriminate.
  - now intros [= <-].
  - intros [= <-]. destruct (Z.leb_spec 0 e) as [He|He].
    + rewrite Z.shiftl_mul_pow2 by lia.
      rewrite (Z.max_r 0 e), (Z.max_l 0 (- e)) by lia.
      assert (0 < 2 ^ e)%Z by (apply Z.pow_pos_nonneg; lia).
      destruct s; cbn [Z.pow]; lia.
    + rewrite Z.shiftr_div_pow2 by lia.
      rewrite (Z.max_l 0 e), (Z.max_r 0 (- e)) by lia.
      assert (HD : (0 < 2 ^ (- e))%Z) by (apply Z.pow_pos_nonneg; lia).
      pose proof (Z.mul_div_le (Z.pos m) _ HD).
      pose proof (Z.mul_succ_div_gt (Z.pos m) _ HD).
      assert (0 <= Z.pos m / 2 ^ (- e))%Z by (apply Z.div_pos; lia).
      destruct s; cbn [Z.pow]; nia.
Qed.

Example int_examples :
  Py.int 2.75%float = Ok 2%Z /\ Py.int (-2.75)%float = Ok (-2)%Z /\
  Py.int 0.999%float = Ok 0%Z /\ Py.int 10%float = Ok 10%Z /\
  Py.int (-0.0)%float = Ok 0%Z /\ Py.int 1e3%float = Ok 1000%Z /\
  Py.int infinity = Raise OverflowError.
Proof. repeat split. Qed.

(** Splits on the next parameter that [build_method] reads. *)
Ltac next_parameter params :=
  match goal with
  | |- context [subscript params ?k] =>
      let E := fresh "E" in
      destruct (dict_get k params) eqn:E;
      [ rewrite (subscript_Ok _ _ _ E)
      | rewrite (subscript_Raise _ _ E) ];
      cbn [Py.bind]
  end.

(** C9.  With the six parameters of a CV method among the values, and the
    scan count [x] a finite float, building succeeds: the five potentials
    and rates are taken as they are and the scan count is [int x], which is
    [x] rounded toward zero.  For each of the three techniques, when a
    parameter of its preset is absent from the values, building raises the
    [KeyError] of an absent parameter. *)
Theorem build_method_spec :
  (forall (params : dict float) (b v1 v2 st sr x : float) (n : Z),
     dict_get "Start Potential (V)" params = Some b ->
     dict_get "First Vertex Potential (V)" params = Some v1 ->
     dict_get "Second Vertex Potential (V)" params = Some v2 ->
     dict_get "Step Potential (V)" params = Some st ->
     dict_get "Scan Rate (V/s)" params = Some sr ->
     dict_get "Number of Scans" params = Some x ->
     Py.int x = Ok n ->
     build_method "CV" params = Ok (Some (CV b v1 v2 st sr n)) /\
     rounds_toward_zero (Prim2SF x) n) /\
  (forall (technique : string) (preset : dict bounds) (params : dict float)
          (key : string),
     get_preset technique = Ok preset ->
     In key (keys preset) ->
     dict_get key params = None ->
     exists k,
       In k (keys preset) /\ dict_get k params = None /\
       build_method technique params = Raise (KeyError k)).
Proof.
  split.
  - intros params b v1 v2 st sr x n Hb Hv1 Hv2 Hst Hsr Hx Hn.
    split; [|now apply int_of_spec_rounds_toward_zero].
    unfold build_method. cbn [String.eqb Ascii.eqb Bool.eqb].
    rewrite (subscript_Ok _ _ _ Hb), (subscript_Ok _ _ _ Hv1),
      (subscript_Ok _ _ _ Hv2), (subscript_Ok _ _ _ Hst),
      (subscript_Ok _ _ _ Hsr), (subscript_Ok _ _ _ Hx).
    cbn [Py.bind]. now rewrite Hn.
  - intros technique preset params key Hpre Hin Hkey.
    destruct (get_preset_known _ _ Hpre) as [->|[->| ->]];
      injection Hpre as <-; unfold build_method;
      cbn [String.eqb Ascii.eqb Bool.eqb];
      repeat next_parameter params;
      try (eexists; split; [|split; [eassumption|reflexivity]];
           cbn; tauto);
      exfalso; cbn in Hin; intuition (subst; congruence).
Qed.

Lemma build_method_spec_witness :
  (build_method "CV" cv_values = Ok (Some (CV (-0.5) 0.5 (-0.5) 0.01 0.1 2)) /\
   rounds_toward_zero (Prim2SF 2.75%float) 2) /\
  (exists k,
     In k [ "Start Potential (V)"; "End Potential (V)"; "Step Potential (V)";
            "Pulse Amplitude (V)"; "Pulse Width (s)"; "Scan Rate (V/s)" ] /\
     dict_get k [("Start Potential (V)", 0.5%float)] = None /\
     build_method "DPV" [("Start Potential (V)", 0.5%float)]
     = Raise (KeyError k)).
Proof.
  split.
  - exact (proj1 build_method_spec cv_values
             (-0.5)%float 0.5%float (-0.5)%float 0.01%float 0.1%float
             2.75%float 2%Z
             eq_refl eq_refl eq_refl eq_refl eq_refl eq_refl eq_refl).
  - refine (proj2 build_method_spec "DPV" _
              [("Start Potential (V)", 0.5%float)] "Pulse Width (s)"
              eq_refl _ eq_refl).
    cbn. tauto.
Defined.

Example build_method_missing_key :
  build_method "DPV" [("Start Potential (V)", 0.5%float)]
  = Raise (KeyError "End Potential (V)").
Proof. reflexivity. Qed.

(** ** Analysis *)

(** [<=] on floats that are not NaN is a total preorder. *)

Ltac compare_cases :=
  repeat match goal with
  | |- context [Z.compare ?a ?b] => destruct (Z.compare_spec a b)
  | |- context [PosDef.Pos.compare_cont Eq ?a ?b] =>
      change (PosDef.Pos.compare_cont Eq a b) with (Pos.compare a b);
      destruct (Pos.compare_spec a b)
  | H : context [Z.compare ?a ?b] |- _ => destruct (Z.compare_spec a b)
  | H : context [PosDef.Pos.compare_cont Eq ?a ?b] |- _ =>
      change (PosDef.Pos.compare_cont Eq a b) with (Pos.compare a b) in H;
      destruct (Pos.compare_spec a b)
  end.

Lemma SFleb_trans (x y z : spec_float) :
  SFleb x y = true -> SFleb y z = true -> SFleb x z = true.
Proof.
  unfold SFleb, SFcompare.
  destruct x as [sx|sx| |sx mx ex], y as [sy|sy| |sy my ey],
           z as [sz|sz| |sz mz ez];
    try destruct sx; try destruct sy; try destruct sz;
    simpl; try congruence; try reflexivity;
    compare_cases; simpl; try congruence; try reflexivity; try lia.
Qed.

Lemma SFleb_total (x y : spec_float) :
  x <> S754_nan -> y <> S754_nan -> SFleb x y = false -> SFleb y x = true.
Proof.
  unfold SFleb, SFcompare.
  destruct x as [sx|sx| |sx mx ex], y as [sy|sy| |sy my ey];
    try destruct sx; try destruct sy;
    simpl; try congruence; try reflexivity;
    compare_cases; simpl; try congruence; try reflexivity; try lia.
Qed.

Lemma is_nan_spec (x : float) : is_nan x = false <-> Prim2SF x <> S754_nan.
Proof.
  unfold is_nan. rewrite FloatAxioms.eqb_spec. unfold SFeqb, SFcompare.
  destruct (Prim2SF x) as [s|s| |s m e]; try destruct s; simpl;
    try (split; congruence).
  all: rewrite Z.compare_refl;
    change (PosDef.Pos.compare_cont Eq m m) with (Pos.compare m m);
    rewrite Pos.compare_refl; simpl; split; congruence.
Qed.

Lemma leb_trans (x y z : float) :
  PrimFloat.leb x y = true -> PrimFloat.leb y z = true ->
  PrimFloat.leb x z = true.
Proof. rewrite !FloatAxioms.leb_spec. apply SFleb_trans. Qed.

Lemma leb_total (x y : float) :
  is_nan x = false -> is_nan y = false ->
  PrimFloat.leb x y = false -> PrimFloat.leb y x = true.
Proof. rewrite !FloatAxioms.leb_spec, !is_nan_spec. apply SFleb_total. Qed.

Lemma leb_refl (x : float) : is_nan x = false -> PrimFloat.leb x x = true.
Proof.
  intros Hx. destruct (PrimFloat.leb x x) eqn:H; [reflexivity|].
  pose proof (leb_total x x Hx Hx H). congruence.
Qed.

Lemma maximum_bounds (x y : float) :
  is_nan x = false -> is_nan y = false ->
  is_nan (Np.maximum x y) = false /\
  PrimFloat.leb x (Np.maximum x y) = true /\
  PrimFloat.leb y (Np.maximum x y) = true.
Proof.
  intros Hx Hy. unfold Np.maximum. rewrite Hx, orb_false_r.
  destruct (PrimFloat.leb y x) eqn:H.
  - auto using leb_refl.
  - auto using leb_refl, leb_total.
Qed.

(** Without NaN, the reduction of [max] is at least every element. *)
Lemma fold_maximum_bound (rest : list float) (x : float) :
  forallb (fun y => negb (is_nan y)) (x :: rest) = true ->
  forall y, In y (x :: rest) ->
            PrimFloat.leb y (fold_left Np.maximum rest x) = true.
Proof.
  revert x. induction rest as [|z rest IH]; intros x Hnan y Hy.
  - destruct Hy as [<-|[]]. cbn [forallb] in Hnan.
    apply andb_prop in Hnan as [Hx _]. now apply leb_refl, negb_true_iff.
  - cbn [forallb] in Hnan.
    apply andb_prop in Hnan as [Hx [Hz Hrest]%andb_prop].
    apply negb_true_iff in Hx, Hz.
    destruct (maximum_bounds x z Hx Hz) as (Hm & Hxm & Hzm).
    cbn [fold_left].
    assert (Hacc : forall u, In u (Np.maximum x z :: rest) ->
                   PrimFloat.leb u (fold_left Np.maximum rest (Np.maximum x z))
                   = true).
    { apply IH. cbn [forallb]. now rewrite Hm, Hrest. }
    destruct Hy as [<-|[<-|Hy]].
    + apply (leb_trans _ _ _ Hxm). apply Hacc. now left.
    + apply (leb_trans _ _ _ Hzm). apply Hacc. now left.
    + apply Hacc. now right.
Qed.

Lemma maximum_nan (x y : float) : is_nan x = true -> Np.maximum x y = x.
Proof. unfold Np.maximum. intros ->. now rewrite orb_true_r. Qed.

Lemma fold_maximum_nan (rest : list float) (x : float) :
  is_nan x = true -> fold_left Np.maximum rest x = x.
Proof.
  intros Hx. induction rest as [|y rest IH]; simpl; [reflexivity|].
  now rewrite (maximum_nan _ _ Hx).
Qed.

(** The scan of [argmax] stops on the element that the reduction of [max]
    returns. *)
Lemma argmax_from_max (rest pre : list float) (mp : float) (best : nat) :
  is_nan mp = false ->
  nth_error (pre ++ rest) best = Some mp ->
  nth_error (pre ++ rest) (Np.argmax_from rest mp best (length pre))
  = Some (fold_left Np.maximum rest mp).
Proof.
  revert pre mp best.
  induction rest as [|x rest IH]; intros pre mp best Hmp Hbest; simpl.
  - exact Hbest.
  - unfold Np.maximum at 2. rewrite Hmp, orb_false_r.
    assert (Hcons : pre ++ x :: rest = (pre ++ [x]) ++ rest)
      by now rewrite <- app_assoc.
    assert (Hlen : S (length pre) = length (pre ++ [x]))
      by (rewrite length_app; simpl; lia).
    destruct (PrimFloat.leb x mp) eqn:Hle.
    + rewrite Hcons, Hlen. apply IH; [exact Hmp | now rewrite <- Hcons].
    + destruct (is_nan x) eqn:Hx.
      * rewrite (fold_maximum_nan _ _ Hx).
        rewrite nth_error_app2 by lia. now rewrite Nat.sub_diag.
      * rewrite Hcons, Hlen. apply IH; [exact Hx|].
        rewrite <- Hcons, nth_error_app2 by lia. now rewrite Nat.sub_diag.
Qed.

Lemma is_nan_true (x : float) : is_nan x = true <-> Prim2SF x = S754_nan.
Proof.
  pose proof (is_nan_spec x) as H. destruct (is_nan x).
  - split; [|reflexivity]. intros _.
    destruct (Prim2SF x); try reflexivity;
      (assert (true = false) by (apply H; discriminate); discriminate).
  - split; [discriminate|]. intros E. now apply H in E.
Qed.

Lemma is_nan_abs (x : float) : is_nan (PrimFloat.abs x) = is_nan x.
Proof.
  destruct (is_nan x) eqn:Hx.
  - apply is_nan_true. rewrite FloatAxioms.abs_spec.
    apply is_nan_true in Hx. now rewrite Hx.
  - apply is_nan_spec. rewrite FloatAxioms.abs_spec.
    apply is_nan_spec in Hx. now destruct (Prim2SF x).
Qed.

Lemma existsb_is_nan_abs (a : list float) :
  existsb is_nan (Np.abs a) = existsb is_nan a.
Proof.
  unfold Np.abs. induction a as [|x a IH]; [reflexivity|].
  cbn [map existsb]. now rewrite is_nan_abs, IH.
Qed.


Lemma argmax_max (a : list float) :
  a <> [] ->
  exists i m,
    Np.argmax a = Ok i /\ Np.max a = Ok m /\ nth_error a i = Some m /\
    (forallb (fun y => negb (is_nan y)) a = true ->
     forall y, In y a -> PrimFloat.leb y m = true).
Proof.
  destruct a as [|x rest]; [congruence|]. intros _.
  unfold Np.argmax, Np.max.
  destruct (is_nan x) eqn:Hx.
  - exists 0, x. rewrite (fold_maximum_nan _ _ Hx).
    repeat (split; [reflexivity|]).
    intros Hnan. cbn [forallb] in Hnan. rewrite Hx in Hnan. discriminate.
  - eexists _, _. split; [reflexivity|]. split; [reflexivity|].
    split; [|apply fold_maximum_bound].
    apply (argmax_from_max rest [x] x 0 Hx). reflexivity.
Qed.


(** ** Text of a CSV file *)

Section Text.

Import Pd.

Lemma append_nil_l (s : string) : String.append EmptyString s = s.
Proof. reflexivity. Qed.

Lemma append_cons (c : ascii) (s t : string) :
  String.append (String c s) t = String c (String.append s t).
Proof. reflexivity. Qed.

Lemma append_assoc (s t u : string) :
  String.append (String.append s t) u = String.append s (String.append t u).
Proof.
  induction s as [|c s IH]; [reflexivity|].
  now rewrite !append_cons, IH.
Qed.

Lemma forallb_string_app (p : ascii -> bool) (s t : string) :
  forallb_string p (String.append s t)
  = forallb_string p s && forallb_string p t.
Proof.
  induction s as [|c s IH]; [reflexivity|].
  rewrite append_cons. simpl. now rewrite IH, andb_assoc.
Qed.

Lemma forallb_string_impl (p q : ascii -> bool) (s : string) :
  (forall c, p c = true -> q c = true) ->
  forallb_string p s = true -> forallb_string q s = true.
Proof.
  intros Hpq. induction s as [|c s IH]; simpl; [reflexivity|].
  intros [Hc Hs]%andb_prop. now rewrite (Hpq _ Hc), IH.
Qed.

Lemma plain_char_not_comma (c : ascii) :
  plain_char c = true -> Ascii.eqb c comma = false.
Proof.
  intros H. destruct (Ascii.eqb_spec c comma) as [->|]; [|reflexivity].
  discriminate H.
Qed.

Lemma plain_char_not_LF (c : ascii) :
  plain_char c = true -> Ascii.eqb c LF = false.
Proof.
  intros H. destruct (Ascii.eqb_spec c LF) as [->|]; [|reflexivity].
  discriminate H.
Qed.

Lemma plain_field_free_of_comma (s : string) :
  plain_field s = true -> free_of comma s = true.
Proof.
  apply forallb_string_impl. intros c H.
  now rewrite (plain_char_not_comma _ H).
Qed.

Lemma split_on_free (sep : ascii) (s : string) :
  free_of sep s = true -> split_on sep s = [s].
Proof.
  induction s as [|c s IH]; simpl; [reflexivity|].
  intros [Hc Hs]%andb_prop. apply negb_true_iff in Hc.
  now rewrite Hc, (IH Hs).
Qed.

(** Splitting stops a piece at the first separator. *)
Lemma split_on_app (sep : ascii) (s t : string) :
  free_of sep s = true ->
  split_on sep (String.append s (String sep t)) = s :: split_on sep t.
Proof.
  induction s as [|c s IH].
  - intros _. rewrite append_nil_l. simpl. now rewrite Ascii.eqb_refl.
  - rewrite append_cons. simpl. intros [Hc Hs]%andb_prop.
    apply negb_true_iff in Hc. now rewrite Hc, (IH Hs).
Qed.

(** The fields of a record are read back from its line. *)
Lemma split_on_concat (fields : list string) :
  fields <> [] ->
  forallb plain_field fields = true ->
  split_on comma (String.concat (String comma EmptyString) fields) = fields.
Proof.
  induction fields as [|f fields IH]; [congruence|]. intros _.
  simpl. intros [Hf Hfs]%andb_prop. destruct fields as [|g fields].
  - apply split_on_free. now apply plain_field_free_of_comma.
  - rewrite append_cons, append_nil_l.
    rewrite split_on_app by now apply plain_field_free_of_comma.
    f_equal. apply IH; [discriminate | exact Hfs].
Qed.

Lemma line_of_chars (p : ascii -> bool) (fields : list string) :
  p comma = true ->
  forallb (forallb_string p) fields = true ->
  forallb_string p (line_of fields) = true.
Proof.
  intros Hcomma. unfold line_of.
  induction fields as [|f fields IH]; [reflexivity|].
  simpl. intros [Hf Hfs]%andb_prop. destruct fields as [|g fields]; [exact Hf|].
  rewrite forallb_string_app, Hf, append_cons, append_nil_l.
  simpl forallb_string. rewrite Hcomma. simpl. apply IH, Hfs.
Qed.

Lemma forallb_impl {A} (p q : A -> bool) (l : list A) :
  (forall a, p a = true -> q a = true) ->
  forallb p l = true -> forallb q l = true.
Proof.
  intros Hpq. induction l as [|a l IH]; simpl; [reflexivity|].
  intros [Ha Hl]%andb_prop. now rewrite (Hpq _ Ha), IH.
Qed.

(** The lines of a file are read back from its text. *)
Lemma split_on_file_text (records : list (list string)) :
  forallb (fun r => free_of LF (line_of r)) records = true ->
  split_on LF (file_text records) = map line_of records ++ [EmptyString].
Proof.
  unfold file_text.
  induction records as [|r records IH]; simpl; [reflexivity|].
  intros [Hr Hrs]%andb_prop. unfold record_text at 1. fold (line_of r).
  rewrite append_assoc, append_cons, append_nil_l.
  rewrite split_on_app by exact Hr. now rewrite IH.
Qed.

Lemma filter_nonempty_lines (lines : list string) :
  forallb nonempty lines = true ->
  List.filter nonempty (lines ++ [EmptyString]) = lines.
Proof.
  induction lines as [|l lines IH]; simpl; [reflexivity|].
  intros [Hl Hls]%andb_prop. now rewrite Hl, IH.
Qed.

Lemma blank_nonempty (s : string) : blank s = false -> nonempty s = true.
Proof. destruct s; [discriminate | reflexivity]. Qed.

Lemma blank_app_comma (s t : string) :
  blank (String.append s (String comma t)) = false.
Proof.
  unfold blank. rewrite forallb_string_app. simpl.
  now rewrite andb_false_r.
Qed.

(** A record that shows does not print as a blank line. *)
Lemma visible_not_blank (r : list string) :
  r <> [] -> visible r = true -> blank (line_of r) = false.
Proof.
  destruct r as [|f [|g r]]; [congruence| |]; intros _.
  - intros H. apply negb_true_iff in H. exact H.
  - intros _. unfold line_of. simpl String.concat.
    rewrite append_cons, append_nil_l. apply blank_app_comma.
Qed.

End Text.

(** ** Rows and columns *)

Section Transpose.

Import Pd.
Context {A B : Type}.

Lemma heads_map (f : A -> B) (xss : list (list A)) :
  heads (map (map f) xss) = map f (heads xss).
Proof.
  unfold heads. induction xss as [|[|x xs] xss IH]; simpl; congruence.
Qed.

Lemma tails_map (f : A -> B) (xss : list (list A)) :
  tails (map (map f) xss) = map (map f) (tails xss).
Proof.
  unfold tails. induction xss as [|[|x xs] xss IH]; simpl; congruence.
Qed.

Lemma transpose_map (f : A -> B) (n : nat) (xss : list (list A)) :
  transpose n (map (map f) xss) = map (map f) (transpose n xss).
Proof.
  revert xss. induction n as [|n IH]; intros xss; simpl; [reflexivity|].
  now rewrite heads_map, tails_map, IH.
Qed.

(** The first column is the list of the heads of the rows, and the rows
    without their heads are the rows of the other columns. *)
Lemma transpose_cons (n : nat) (c : list A) (cols : list (list A)) :
  length c = n ->
  heads (transpose n (c :: cols)) = c /\
  tails (transpose n (c :: cols)) = transpose n cols.
Proof.
  revert c cols. induction n as [|n IH]; intros [|x c] cols Hlen;
    simpl in Hlen; try discriminate.
  - now split.
  - injection Hlen as Hlen.
    destruct (IH c (tails cols) Hlen) as [Hh Ht].
    change (transpose (S n) ((x :: c) :: cols))
      with ((x :: heads cols) :: transpose n (c :: tails cols)).
    split.
    + change (heads ((x :: heads cols) :: ?r)) with (x :: heads r).
      now rewrite Hh.
    + change (tails ((x :: heads cols) :: ?r)) with (heads cols :: tails r).
      now rewrite Ht.
Qed.

(** The columns of the rows of a frame are its columns. *)
Lemma transpose_transpose (n : nat) (cols : list (list A)) :
  Forall (fun c => length c = n) cols ->
  transpose (length cols) (transpose n cols) = cols.
Proof.
  induction 1 as [|c cols Hc Hcols IH]; [reflexivity|].
  destruct (transpose_cons n c cols Hc) as [Hh Ht].
  simpl length. cbn [transpose]. now rewrite Hh, Ht, IH.
Qed.

Lemma length_heads (n : nat) (cols : list (list A)) :
  Forall (fun c => length c = S n) cols -> length (heads cols) = length cols.
Proof.
  induction 1 as [|[|x c] cols Hc Hcols IH]; simpl in *; congruence.
Qed.

Lemma length_tails (n : nat) (cols : list (list A)) :
  Forall (fun c => length c = S n) cols ->
  Forall (fun c => length c = n) (tails cols).
Proof.
  induction 1 as [|[|x c] cols Hc Hcols IH]; simpl in *;
    constructor; auto; congruence.
Qed.

(** Every row of a frame has one field per column. *)
Lemma transpose_row_lengths (n : nat) (cols : list (list A)) :
  Forall (fun c => length c = n) cols ->
  Forall (fun r => length r = length cols) (transpose n cols).
Proof.
  revert cols. induction n as [|n IH]; intros cols Hcols; simpl.
  - constructor.
  - constructor; [now apply (length_heads n)|].
    replace (length cols) with (length (tails cols))
      by (unfold tails; apply length_map).
    apply IH. now apply length_tails.
Qed.

End Transpose.

(** ** Writing a frame and reading it back *)

Section RoundTrip.

Import Pd.
Variable format_float : float -> string.
Variable parse_float64 : list string -> option (list float).

Lemma file_text_chars (p : ascii -> bool) (records : list (list string)) :
  p comma = true -> p LF = true ->
  forallb (forallb (forallb_string p)) records = true ->
  forallb_string p (file_text records) = true.
Proof.
  intros Hcomma HLF. unfold file_text.
  induction records as [|r records IH]; [reflexivity|].
  simpl. intros [Hr Hrs]%andb_prop.
  rewrite forallb_string_app, (IH Hrs), andb_true_r.
  unfold record_text. rewrite forallb_string_app. simpl.
  rewrite HLF, andb_true_r. now apply line_of_chars.
Qed.

Lemma DataFrame_Ok (data : dict (list float)) (df : frame) :
  DataFrame data = Ok df ->
  df = data /\ Forall (fun c => length c = nrows data) (map snd data).
Proof.
  unfold DataFrame.
  destruct (forallb _ data) eqn:H; [|discriminate].
  intros [= <-]. split; [reflexivity|].
  apply List.Forall_forall. intros c [kc [<- Hin]]%in_map_iff.
  rewrite forallb_forall in H. now apply Nat.eqb_eq, H.
Qed.

Lemma well_named_fields (names : list string) :
  well_named names = true ->
  names <> [] /\ forallb plain_field names = true.
Proof.
  unfold well_named. intros [[H1 H2]%andb_prop _]%andb_prop. split.
  - destruct names; [discriminate | congruence].
  - revert H2. apply forallb_impl. now intros n [_ ?]%andb_prop.
Qed.

(** What [read_csv] makes of the text that [to_csv] wrote for a frame:
    the columns under the same names, each converted from the fields
    its floats were printed as. *)
Lemma parse_csv_csv_text (df : frame) (text : string) :
  Forall (fun c => length c = nrows df) (map snd df) ->
  csv_text format_float df = Some text ->
  parse_csv parse_float64 text =
  match sequence (map (parse_column parse_float64)
                      (map (map format_float) (map snd df))) with
  | Some cols => Some (Ok (combine (keys df) cols))
  | None => None
  end.
Proof.
  intros Hcols. unfold csv_text.
  destruct (well_named (keys df)) eqn:Hnames; [|discriminate].
  destruct (forallb (forallb plain_field) (csv_cells format_float df))
    eqn:Hplain; [|discriminate].
  destruct (forallb visible (keys df :: csv_cells format_float df))
    eqn:Hvis; [|discriminate].
  cbn [andb]. intros [= <-].
  destruct (well_named_fields _ Hnames) as [Hne Hnplain].
  set (cells := csv_cells format_float df) in *.
  assert (Hklen : length (keys df) = length (map snd df))
    by (unfold keys; now rewrite !length_map).
  assert (Hrows : Forall (fun r => length r = length (keys df)) cells).
  { unfold cells, csv_cells. apply List.Forall_forall.
    intros r [r0 [<- Hin]]%in_map_iff. rewrite length_map, Hklen.
    pose proof (transpose_row_lengths _ _ Hcols) as H.
    rewrite List.Forall_forall in H. now apply H. }
  assert (Hrne : Forall (fun r => r <> []) (keys df :: cells)).
  { constructor; [exact Hne|]. apply List.Forall_forall. intros r Hr Heq.
    rewrite List.Forall_forall in Hrows. specialize (Hrows r Hr). subst r.
    destruct (keys df); [congruence | discriminate]. }
  assert (Hall : forallb (forallb plain_field) (keys df :: cells) = true)
    by (simpl; now rewrite Hnplain, Hplain).
  unfold parse_csv.
  (* every character is readable *)
  rewrite (file_text_chars readable) by
    (try reflexivity; revert Hall; apply forallb_impl; intros r;
     apply forallb_impl; intros f; apply forallb_string_impl;
     intros c Hc; unfold readable; rewrite Hc; apply orb_true_r).
  cbn [negb].
  (* the lines are the records *)
  rewrite split_on_file_text by
    (rewrite forallb_forall; intros r Hr;
     apply (line_of_chars (fun c => negb (Ascii.eqb c LF))); [reflexivity|];
     rewrite forallb_forall in Hall; specialize (Hall r Hr); revert Hall;
     apply forallb_impl; intros f; apply forallb_string_impl;
     intros c Hc; now rewrite (plain_char_not_LF _ Hc)).
  assert (Hshow : forallb (fun r => negb (blank (line_of r)))
                          (keys df :: cells) = true).
  { rewrite forallb_forall. intros r Hr. apply negb_true_iff.
    rewrite List.Forall_forall in Hrne. rewrite forallb_forall in Hvis.
    apply visible_not_blank; auto. }
  rewrite filter_nonempty_lines by
    (rewrite forallb_forall; intros l [r [<- Hr]]%in_map_iff;
     rewrite forallb_forall in Hshow; apply blank_nonempty;
     now apply negb_true_iff, Hshow).
  replace (existsb blank (map line_of (keys df :: cells))) with false.
  2:{ symmetry. apply not_true_is_false. intros [l [Hl Hb]]%existsb_exists.
      apply in_map_iff in Hl as [r [<- Hr]].
      rewrite forallb_forall in Hshow. specialize (Hshow r Hr).
      now rewrite Hb in Hshow. }
  cbn [map].
  rewrite !(split_on_concat _ Hne Hnplain : split_on comma (line_of _) = _).
  replace (map (split_on comma) (map line_of cells)) with cells.
  2:{ rewrite map_map. symmetry. rewrite <- (map_id cells) at 2.
      apply map_ext_in. intros r Hr. apply split_on_concat.
      - inversion Hrne as [|? ? _ H]; subst. rewrite List.Forall_forall in H. auto.
      - rewrite forallb_forall in Hplain. auto. }
  rewrite Hnames.
  replace (forallb (fun r => Nat.eqb (length r) (length (keys df))) cells)
    with true.
  2:{ symmetry. rewrite forallb_forall. intros r Hr. apply Nat.eqb_eq.
      rewrite List.Forall_forall in Hrows. auto. }
  cbn [andb]. unfold cells, csv_cells.
  rewrite transpose_map, Hklen, (transpose_transpose _ _ Hcols).
  reflexivity.
Qed.

End RoundTrip.

(** ** Persistence *)

(** Without one of the two sequences the refresh clears the plot and
    leaves the data display. *)
Lemma refresh_without_column (w : app) :
  dict_get "voltage" (current_data w) = None \/
  dict_get "current" (current_data w) = None ->
  ax (update_data_display (update_plot w)) = [] /\
  data_text (update_data_display (update_plot w)) = data_text w.
Proof.
  intros H.
  destruct (dict_get "voltage" (current_data w)) as [x|] eqn:Ex;
    destruct (dict_get "current" (current_data w)) as [y|] eqn:Ey;
    try (destruct H; discriminate);
    unfold update_data_display, update_plot, subscript;
    cbn; rewrite ?Ex, ?Ey; cbn; rewrite ?Ex, ?Ey; cbn; auto.
Qed.

Section PersistenceFacts.

Import Pd.
Variable format_float : float -> string.
Variable parse_float64 : list string -> option (list float).







(** C6, as amended.  Opening a file that [read_csv] accepts replaces
    the store by the columns of the file, whatever their names, and
    shows "Data loaded"; when the voltage or the current column is
    absent the plot is left cleared and the data display is not
    refreshed, and no error is reported for the missing column after the
    call. *)
Theorem open_data_replaces_store (w : app) (fs : filesystem)
  (filename : string) (df : frame) :
  nonempty filename = true ->
  read_csv parse_float64 filename fs = Some (Ok df) ->
  exists w',
    open_data parse_float64 filename w fs = Some w' /\
    current_data w' = df /\
    statusBar w' = Some (DataLoadedFrom filename) /\
    (dict_get "voltage" df = None \/ dict_get "current" df = None ->
       ax w' = [] /\ data_text w' = data_text w).
Proof.
  intros Hname Hread. unfold open_data. rewrite Hname, Hread.
  eexists. split; [reflexivity|].
  cbn [statusBar showMessage current_data ax data_text].
  rewrite current_data_refresh. split; [reflexivity|]. split; [reflexivity|].
  intros H.
  exact (refresh_without_column (set_current_data (to_dict_list df) w) H).
Qed.

End PersistenceFacts.

(** The file written for the recorded trace of the scenario. *)
Example saved_file :
  match save_data scenario_format "run.csv"
          (window "CV" cv_values recorded true) (disk []) with
  | Some (_, fs') =>
      Pd.files fs' !! "run.csv"
      = Some (text_lines ["voltage,current"; "-0.5,1.2e-06"; "-0.4,1.5e-06"])
  | None => False
  end.
Proof. vm_compute. reflexivity. Qed.



Lemma open_data_replaces_store_witness :
  exists w',
    open_data scenario_parse "run.csv"
      (window "CV" cv_values recorded true) other_columns = Some w' /\
    current_data w' = [("time", [0.5%float]); ("signal", [(-0.5)%float])] /\
    statusBar w' = Some (DataLoadedFrom "run.csv") /\
    (dict_get "voltage" [("time", [0.5%float]); ("signal", [(-0.5)%float])]
     = None \/
     dict_get "current" [("time", [0.5%float]); ("signal", [(-0.5)%float])]
     = None ->
     ax w' = [] /\
     data_text w' = data_text (window "CV" cv_values recorded true)).
Proof.
  exact (open_data_replaces_store scenario_parse
           (window "CV" cv_values recorded true) other_columns "run.csv"
           [("time", [0.5%float]); ("signal", [(-0.5)%float])]
           eq_refl eq_refl).
Defined.

(** C6 as stated fails: a file without the voltage and current columns is
    loaded without an error, and the store takes the shape of the file. *)
Lemma missing_columns_loaded :
  let w := window "CV" cv_values recorded true in
  exists w',
    open_data scenario_parse "run.csv" w other_columns = Some w' /\
    statusBar w' = Some (DataLoadedFrom "run.csv") /\
    current_data w' = [("time", [0.5%float]); ("signal", [(-0.5)%float])] /\
    dict_get "voltage" (current_data w') = None /\
    dict_get "current" (current_data w') = None /\
    current_data w' <> current_data w.
Proof.
  eexists. split; [vm_compute; reflexivity|].
  repeat split. discriminate.
Qed.

Example analysis_sweep :
  analysis sweep
  = Ok (Some {| peak_current := 1.5e-6; peak_voltage := -0.4;
                data_points := 3 |}).
Proof. reflexivity. Qed.

Example analysis_unpaired :
  analysis [("voltage", [(-0.5)%float]);
            ("current", [1.2e-6%float; 1.5e-6%float])]
  = Raise (IndexError 1 1).
Proof. reflexivity. Qed.


(** * Further properties *)

(** ** Sample sink: batches *)

Lemma dict_get_None_keys {V} (k : string) (d : dict V) :
  dict_get k d = None <-> ~ In k (keys d).
Proof.
  unfold keys. induction d as [|[k' v] d IH]; simpl; [tauto|].
  destruct (String.eqb_spec k' k) as [->|Hk].
  - split; [discriminate | tauto].
  - rewrite IH. tauto.
Qed.

(** The two refresh calls on a store that has both sequences: the display
    takes the pairs, the plot the line or the error of [plot]. *)
Lemma refresh_both (w : app) (v c : list float) :
  dict_get "voltage" (current_data w) = Some v ->
  dict_get "current" (current_data w) = Some c ->
  update_data_display (update_plot w)
  = setText (combine v c)
      match plot v c with
      | Ok line => set_ax [line] (set_ax [] w)
      | Raise e => showMessage (ErrorUpdatingPlot e) (set_ax [] w)
      end.
Proof.
  intros Hv Hc. unfold update_plot. cbn [current_data set_ax].
  rewrite (subscript_Ok _ _ _ Hv), (subscript_Ok _ _ _ Hc). cbn [Py.bind].
  destruct (plot v c); unfold update_data_display;
    cbn [current_data set_ax showMessage];
    now rewrite (subscript_Ok _ _ _ Hv), (subscript_Ok _ _ _ Hc).
Qed.

(** The loop on a store with both sequences, in terms of the guards. *)
Lemma update_data_storage_routes (new_data : dict float)
  (d : dict (list float)) (v c : list float) :
  dict_get "voltage" d = Some v ->
  dict_get "current" d = Some c ->
  exists d',
    update_data_storage new_data d = (d', None) /\
    dict_get "voltage" d'
    = Some (v ++ map snd (List.filter to_voltage new_data)) /\
    dict_get "current" d'
    = Some (c ++ map snd (List.filter to_current new_data)).
Proof. exact (update_data_storage_both new_data d v c). Qed.

(** The whole callback on a store with both sequences. *)
Lemma new_data_callback_both (new_data : dict float) (w : app)
  (v c : list float) :
  dict_get "voltage" (current_data w) = Some v ->
  dict_get "current" (current_data w) = Some c ->
  exists d',
    dict_get "voltage" d'
    = Some (v ++ map snd (List.filter to_voltage new_data)) /\
    dict_get "current" d'
    = Some (c ++ map snd (List.filter to_current new_data)) /\
    new_data_callback new_data w
    = update_data_display (update_plot (set_current_data d' w)).
Proof.
  intros Hv Hc.
  destruct (update_data_storage_routes new_data _ v c Hv Hc)
    as (d' & Hrun & Hv' & Hc').
  exists d'. unfold new_data_callback. now rewrite Hrun.
Qed.

(** X1.  A batch of samples delivered to a store that has both sequences
    raises nothing: the values whose label contains "potential" are
    appended to the voltage sequence in the order of the batch, the values
    whose label contains "current" and not "potential" to the current
    sequence, and the other values are dropped. *)
Theorem new_data_callback_batch (new_data : dict float) (w : app)
  (v c : list float) :
  dict_get "voltage" (current_data w) = Some v ->
  dict_get "current" (current_data w) = Some c ->
  dict_get "voltage" (current_data (new_data_callback new_data w))
  = Some (v ++ map snd (List.filter to_voltage new_data)) /\
  dict_get "current" (current_data (new_data_callback new_data w))
  = Some (c ++ map snd (List.filter to_current new_data)).
Proof.
  intros Hv Hc.
  destruct (new_data_callback_both new_data w v c Hv Hc)
    as (d' & Hv' & Hc' & ->).
  now rewrite current_data_refresh.
Qed.

Lemma new_data_callback_batch_witness :
  let w := window "CV" cv_values recorded true in
  let batch := [("index", 2.75%float); ("Current (A)", 0.9e-6%float);
                ("Applied Potential", 0.5%float);
                ("current range", 1.5e-6%float)] in
  dict_get "voltage" (current_data (new_data_callback batch w))
  = Some [(-0.5)%float; (-0.4)%float; 0.5%float] /\
  dict_get "current" (current_data (new_data_callback batch w))
  = Some [1.2e-6%float; 1.5e-6%float; 0.9e-6%float; 1.5e-6%float].
Proof.
  intros w batch.
  exact (new_data_callback_batch batch w
           [(-0.5)%float; (-0.4)%float] [1.2e-6%float; 1.5e-6%float]
           eq_refl eq_refl).
Defined.

Lemma deliver_keys (batches : list (dict float)) (w : app) :
  keys (current_data (deliver batches w)) = keys (current_data w).
Proof.
  unfold deliver. revert w.
  induction batches as [|b batches IH]; intros w; [reflexivity|].
  cbn [fold_left]. now rewrite IH, new_data_callback_keys.
Qed.

(** X2.  However many batches are delivered, whatever their labels and
    whether or not some of them raise, the store keeps its columns: the
    callback never adds, drops, renames or reorders a sequence. *)
Theorem deliver_keeps_columns (batches : list (dict float)) (w : app) :
  keys (current_data (deliver batches w)) = keys (current_data w) /\
  (forall k, dict_get k (current_data w) = None <->
             dict_get k (current_data (deliver batches w)) = None).
Proof.
  pose proof (deliver_keys batches w) as H. split; [exact H|].
  intros k. rewrite !dict_get_None_keys, H. reflexivity.
Qed.

Lemma update_data_storage_keys (new_data : dict float) (d : dict (list float)) :
  keys (fst (update_data_storage new_data d)) = keys d.
Proof.
  revert d. induction new_data as [|[type value] rest IH]; intros d; simpl;
    [reflexivity|].
  unfold append_to, subscript.
  destruct (str_in "potential" (lower type)).
  - destruct (dict_get "voltage" d) eqn:E; cbn [Py.bind]; [|reflexivity].
    now rewrite IH, (dict_set_keys _ _ _ _ E).
  - destruct (str_in "current" (lower type)); [|apply IH].
    destruct (dict_get "current" d) eqn:E; cbn [Py.bind]; [|reflexivity].
    now rewrite IH, (dict_set_keys _ _ _ _ E).
Qed.

(** X3.  When the loop of the callback raises, the exception is the
    [KeyError] of "voltage" or of "current", the store lacked that sequence
    already when the callback was entered, and the callback shows the
    exception as "Error in data callback" without refreshing the plot or
    the data display. *)
Theorem new_data_callback_error (new_data : dict float) (w : app)
  (d' : dict (list float)) (e : exn) :
  update_data_storage new_data (current_data w) = (d', Some e) ->
  new_data_callback new_data w
  = showMessage (ErrorInDataCallback e) (set_current_data d' w) /\
  ax (new_data_callback new_data w) = ax w /\
  data_text (new_data_callback new_data w) = data_text w /\
  ((e = KeyError "voltage" /\ dict_get "voltage" (current_data w) = None) \/
   (e = KeyError "current" /\ dict_get "current" (current_data w) = None)).
Proof.
  intros Hrun. unfold new_data_callback. rewrite Hrun.
  repeat (split; [reflexivity|]).
  pose proof (update_data_storage_keys new_data (current_data w)) as Hk.
  rewrite Hrun in Hk. cbn [fst] in Hk.
  destruct (update_data_storage_raises _ _ _ _ Hrun) as [[-> H]|[-> H]];
    [left|right]; (split; [reflexivity|]);
    apply dict_get_None_keys; rewrite <- Hk; now apply dict_get_None_keys.
Qed.

Lemma new_data_callback_error_witness :
  let w := window "CV" cv_values current_only true in
  let batch := [("WE current", 1.2e-6%float); ("WE potential", 0.5%float)] in
  new_data_callback batch w
  = showMessage (ErrorInDataCallback (KeyError "voltage"))
      (set_current_data [("current", [1.0e-6%float; 1.2e-6%float])] w) /\
  ax (new_data_callback batch w) = ax w /\
  data_text (new_data_callback batch w) = data_text w /\
  ((KeyError "voltage" = KeyError "voltage" /\
    dict_get "voltage" (current_data w) = None) \/
   (KeyError "voltage" = KeyError "current" /\
    dict_get "current" (current_data w) = None)).
Proof.
  intros w batch.
  exact (new_data_callback_error batch w
           [("current", [1.0e-6%float; 1.2e-6%float])] (KeyError "voltage")
           eq_refl).
Defined.

(** X4.  After a callback on a store that has both sequences, the data
    display holds the pairs of the two sequences up to the shorter one;
    the plot holds the one line of current against voltage when the two
    sequences have the same length, and the status bar is left alone;
    otherwise the plot is empty and the status bar shows, as "Error
    updating plot", the [ValueError] of [plot], whose text names the two
    shapes: "x and y must have same first dimension, but have shapes
    (n,) and (m,)" for the lengths [n] and [m] of the two sequences. *)
Theorem new_data_callback_refresh (new_data : dict float) (w : app)
  (v c : list float) :
  dict_get "voltage" (current_data w) = Some v ->
  dict_get "current" (current_data w) = Some c ->
  let w' := new_data_callback new_data w in
  exists v' c',
    dict_get "voltage" (current_data w') = Some v' /\
    dict_get "current" (current_data w') = Some c' /\
    data_text w' = combine v' c' /\
    length (data_text w') = Nat.min (length v') (length c') /\
    (length v' = length c' ->
       ax w' = [(v', c')] /\ statusBar w' = statusBar w) /\
    (length v' <> length c' ->
       ax w' = [] /\
       statusBar w'
       = Some (ErrorUpdatingPlot
                 (ValueError
                    ("x and y must have same first dimension, but have shapes "
                     ++ Np.shape v' ++ " and " ++ Np.shape c')%string))).
Proof.
  intros Hv Hc w'. subst w'.
  destruct (new_data_callback_both new_data w v c Hv Hc)
    as (d' & Hv' & Hc' & ->).
  eexists _, _. rewrite current_data_refresh. cbn [current_data set_current_data].
  split; [exact Hv'|]. split; [exact Hc'|].
  rewrite (refresh_both (set_current_data d' w) _ _ Hv' Hc').
  cbn [data_text setText]. split; [reflexivity|].
  split; [apply length_combine|].
  unfold plot. split; intros Hlen.
  - apply Nat.eqb_eq in Hlen. now rewrite Hlen.
  - apply Nat.eqb_neq in Hlen. now rewrite Hlen.
Qed.

Lemma new_data_callback_refresh_witness :
  let w := window "CV" cv_values recorded true in
  let w' := new_data_callback [("potential", 0.5%float)] w in
  data_text w'
  = [((-0.5)%float, 1.2e-6%float); ((-0.4)%float, 1.5e-6%float)] /\
  ax w' = [] /\
  statusBar w'
  = Some (ErrorUpdatingPlot
            (ValueError
               "x and y must have same first dimension, but have shapes (3,) and (2,)")).
Proof.
  intros w w'.
  destruct (new_data_callback_refresh [("potential", 0.5%float)] w
              [(-0.5)%float; (-0.4)%float] [1.2e-6%float; 1.5e-6%float]
              eq_refl eq_refl)
    as (v' & c' & Hv & Hc & Htext & _ & _ & Hplot).
  change (new_data_callback [("potential", 0.5%float)] w) with w'
    in Hv, Hc, Htext, Hplot.
  assert (Ev : v' = [(-0.5)%float; (-0.4)%float; 0.5%float])
    by (vm_compute in Hv; congruence).
  assert (Ec : c' = [1.2e-6%float; 1.5e-6%float])
    by (vm_compute in Hc; congruence).
  subst v' c'.
  destruct Hplot as [Hax Hbar]; [simpl; lia|].
  split; [exact Htext|]. split; [exact Hax|exact Hbar].
Defined.

Example unpaired_sample_blanks_plot :
  let w := new_data_callback [("potential", (-0.5)%float); ("current", 1.2e-6%float)]
             (window "CV" cv_values empty_data true) in
  ax w = [([(-0.5)%float], [1.2e-6%float])] /\
  ax (new_data_callback [("potential", (-0.4)%float)] w) = [] /\
  data_text (new_data_callback [("potential", (-0.4)%float)] w)
  = [((-0.5)%float, 1.2e-6%float)] /\
  statusBar (new_data_callback [("potential", (-0.4)%float)] w)
  = Some (ErrorUpdatingPlot
            (ValueError
               "x and y must have same first dimension, but have shapes (2,) and (1,)")).
Proof. repeat split. Qed.

(** X5.  Delivering a batch in two callbacks, cut anywhere, leaves the
    same store, the same plot and the same data display as delivering it
    in one, on a store that has both sequences. *)
Theorem new_data_callback_split (b1 b2 : dict float) (w : app)
  (v c : list float) :
  dict_get "voltage" (current_data w) = Some v ->
  dict_get "current" (current_data w) = Some c ->
  let one := new_data_callback (b1 ++ b2) w in
  let two := new_data_callback b2 (new_data_callback b1 w) in
  current_data one = current_data two /\
  ax one = ax two /\
  data_text one = data_text two.
Proof.
  intros Hv Hc one two. subst one two.
  destruct (update_data_storage_routes b1 _ v c Hv Hc)
    as (d1 & Hrun1 & Hv1 & Hc1).
  destruct (update_data_storage_routes b2 d1 _ _ Hv1 Hc1)
    as (d2 & Hrun2 & Hv2 & Hc2).
  assert (H1 : new_data_callback b1 w
               = update_data_display (update_plot (set_current_data d1 w)))
    by (unfold new_data_callback; now rewrite Hrun1).
  assert (H12 : new_data_callback (b1 ++ b2) w
                = update_data_display (update_plot (set_current_data d2 w)))
    by (unfold new_data_callback;
        now rewrite update_data_storage_app, Hrun1, Hrun2).
  rewrite H12, H1.
  set (w1 := update_data_display (update_plot (set_current_data d1 w))).
  assert (H2 : new_data_callback b2 w1
               = update_data_display (update_plot (set_current_data d2 w1))).
  { unfold new_data_callback, w1. rewrite current_data_refresh.
    cbn [current_data set_current_data]. now rewrite Hrun2. }
  rewrite H2.
  rewrite (refresh_both (set_current_data d2 w) _ _ Hv2 Hc2).
  rewrite (refresh_both (set_current_data d2 w1) _ _ Hv2 Hc2).
  destruct (plot _ _); repeat split.
Qed.

Lemma new_data_callback_split_witness :
  let w := window "CV" cv_values recorded true in
  let one := new_data_callback
               ([("potential", 0.5%float)] ++ [("current", 0.9e-6%float)]) w in
  let two := new_data_callback [("current", 0.9e-6%float)]
               (new_data_callback [("potential", 0.5%float)] w) in
  current_data one = current_data two /\
  ax one = ax two /\
  data_text one = data_text two.
Proof.
  intros w.
  exact (new_data_callback_split [("potential", 0.5%float)]
           [("current", 0.9e-6%float)] w
           [(-0.5)%float; (-0.4)%float] [1.2e-6%float; 1.5e-6%float]
           eq_refl eq_refl).
Defined.

(** The status bar can differ: the message of the unpaired first half
    stays after the second half has paired the sequences again. *)
Example split_keeps_stale_message :
  let w := window "CV" cv_values recorded true in
  statusBar (new_data_callback
               [("potential", 0.5%float); ("current", 0.9e-6%float)] w)
  = None /\
  statusBar (new_data_callback [("current", 0.9e-6%float)]
               (new_data_callback [("potential", 0.5%float)] w))
  = Some (ErrorUpdatingPlot
            (ValueError
               "x and y must have same first dimension, but have shapes (3,) and (2,)")).
Proof. split; reflexivity. Qed.

(** ** Sample sink: a whole measurement *)

Lemma new_data_callback_store (new_data : dict float) (w : app)
  (v c : list float) :
  dict_get "voltage" (current_data w) = Some v ->
  dict_get "current" (current_data w) = Some c ->
  dict_get "voltage" (current_data (new_data_callback new_data w))
  = Some (v ++ map snd (List.filter to_voltage new_data)) /\
  dict_get "current" (current_data (new_data_callback new_data w))
  = Some (c ++ map snd (List.filter to_current new_data)).
Proof.
  intros Hv Hc.
  destruct (new_data_callback_both new_data w v c Hv Hc)
    as (d' & Hv' & Hc' & ->).
  now rewrite current_data_refresh.
Qed.

Lemma deliver_both (batches : list (dict float)) (w : app) (v c : list float) :
  dict_get "voltage" (current_data w) = Some v ->
  dict_get "current" (current_data w) = Some c ->
  dict_get "voltage" (current_data (deliver batches w))
  = Some (v ++ map snd (List.filter to_voltage (concat batches))) /\
  dict_get "current" (current_data (deliver batches w))
  = Some (c ++ map snd (List.filter to_current (concat batches))).
Proof.
  unfold deliver. revert w v c.
  induction batches as [|b batches IH]; intros w v c Hv Hc; cbn [fold_left concat].
  - now rewrite !app_nil_r.
  - destruct (new_data_callback_store b w v c Hv Hc) as [Hv1 Hc1].
    destruct (IH _ _ _ Hv1 Hc1) as [Hv2 Hc2].
    rewrite !List.filter_app, !List.map_app, !List.app_assoc. now split.
Qed.

Lemma balanced_concat (batches : list (dict float)) :
  forallb (fun b => Nat.eqb (length (List.filter to_voltage b))
                            (length (List.filter to_current b)))
          batches = true ->
  length (List.filter to_voltage (concat batches))
  = length (List.filter to_current (concat batches)).
Proof.
  induction batches as [|b batches IH]; [reflexivity|].
  cbn [forallb concat]. intros [Hb Hrest]%andb_prop.
  apply Nat.eqb_eq in Hb. rewrite !List.filter_app, !List.length_app. auto.
Qed.

(** X6.  A measurement delivered in batches that each carry as many
    potentials as currents (the instrument sends one of each per point),
    to a store whose two sequences have the same length: after the last
    batch the sequences are the old ones followed by the potentials and by
    the currents of all the batches in order of arrival, they have the
    same length, the plot shows their one line and the data display all
    their pairs. *)
Theorem deliver_paired (batches : list (dict float)) (w : app)
  (v c : list float) :
  dict_get "voltage" (current_data w) = Some v ->
  dict_get "current" (current_data w) = Some c ->
  length v = length c ->
  forallb (fun b => Nat.eqb (length (List.filter to_voltage b))
                            (length (List.filter to_current b)))
          batches = true ->
  batches <> [] ->
  let v' := v ++ map snd (List.filter to_voltage (concat batches)) in
  let c' := c ++ map snd (List.filter to_current (concat batches)) in
  let w' := deliver batches w in
  dict_get "voltage" (current_data w') = Some v' /\
  dict_get "current" (current_data w') = Some c' /\
  length v' = length c' /\
  ax w' = [(v', c')] /\
  data_text w' = combine v' c'.
Proof.
  intros Hv Hc Hlen Hbal Hne v' c' w'.
  destruct (deliver_both batches w v c Hv Hc) as [Hv' Hc'].
  fold v' c' w' in Hv', Hc'.
  assert (Hlen' : length v' = length c').
  { unfold v', c'. rewrite !List.length_app, !List.length_map.
    now rewrite (balanced_concat _ Hbal), Hlen. }
  repeat (split; [assumption|]).
  destruct (exists_last Hne) as (front & b & Hsplit).
  assert (Hw' : w' = new_data_callback b (deliver front w))
    by (unfold w', deliver; rewrite Hsplit; apply fold_left_app).
  destruct (deliver_both front w v c Hv Hc) as [Hv0 Hc0].
  destruct (new_data_callback_both b _ _ _ Hv0 Hc0) as (d' & Hv1 & Hc1 & Hcb).
  rewrite <- Hw' in Hcb.
  assert (Hd' : current_data w' = d')
    by (rewrite Hcb; apply current_data_refresh).
  rewrite Hd' in Hv', Hc'.
  rewrite Hcb, (refresh_both (set_current_data d' _) _ _ Hv' Hc').
  unfold plot. apply Nat.eqb_eq in Hlen'. rewrite Hlen'. split; reflexivity.
Qed.

Lemma deliver_paired_witness :
  let w := window "CV" cv_values empty_data true in
  let batches := [ [("potential", (-0.5)%float); ("current", 1.2e-6%float)];
                   [("index", 0.5%float)];
                   [("Current", 1.5e-6%float); ("Potential", (-0.4)%float)] ] in
  let w' := deliver batches w in
  dict_get "voltage" (current_data w') = Some [(-0.5)%float; (-0.4)%float] /\
  dict_get "current" (current_data w') = Some [1.2e-6%float; 1.5e-6%float] /\
  length [(-0.5)%float; (-0.4)%float] = length [1.2e-6%float; 1.5e-6%float] /\
  ax w' = [([(-0.5)%float; (-0.4)%float], [1.2e-6%float; 1.5e-6%float])] /\
  data_text w'
  = combine [(-0.5)%float; (-0.4)%float] [1.2e-6%float; 1.5e-6%float].
Proof.
  intros w batches.
  refine (deliver_paired batches w [] [] eq_refl eq_refl eq_refl eq_refl _).
  discriminate.
Defined.

(** ** The two refresh calls *)

(** X7.  Redrawing is idempotent: a second [update_plot], or a second
    [update_data_display], on the result of the first leaves the window as
    the first left it, whatever the store holds; and neither call touches
    the store or the results. *)
Theorem refresh_idempotent (w : app) :
  update_plot (update_plot w) = update_plot w /\
  update_data_display (update_data_display w) = update_data_display w /\
  current_data (update_plot w) = current_data w /\
  current_data (update_data_display w) = current_data w /\
  results_text (update_data_display (update_plot w)) = results_text w.
Proof.
  unfold update_plot, update_data_display, subscript.
  cbn [current_data set_ax].
  destruct (dict_get "voltage" (current_data w)) as [v|] eqn:Ev;
    destruct (dict_get "current" (current_data w)) as [c|] eqn:Ec;
    cbn [Py.bind]; try destruct (plot v c) eqn:Ep;
    cbn [current_data set_ax showMessage setText results_text];
    rewrite ?Ev, ?Ec; cbn [Py.bind]; rewrite ?Ep;
    cbn [current_data set_ax showMessage setText results_text];
    rewrite ?Ev, ?Ec; cbn [Py.bind];
    repeat split.
Qed.

(** ** Measurement start on the window as built *)

Lemma In_techniques (technique : string) :
  In technique techniques ->
  technique = "DPV" \/ technique = "CV" \/ technique = "SWV".
Proof. cbn. intuition. Qed.

(** X8.  On a window whose parameter groups are those that
    [create_parameter_groups] builds, with any values in the spin boxes,
    and for any technique of the combo box, the start of a measurement
    never fails on a missing technique or parameter: the method is built
    from the values of the spin boxes of that technique (for CV, provided
    [int] accepts the number of scans), the store is reset, and the message
    is "Measurement started", "Failed to start measurement" or "No device
    connected" according to the instrument manager. *)
Theorem start_measurement_on_combo (value : string -> string -> float)
  (w : app) :
  param_widgets w = create_parameter_groups value ->
  In (technique_combo w) techniques ->
  (technique_combo w = "CV" ->
   exists n, Py.int (value "CV" "Number of Scans") = Ok n) ->
  exists m,
    (technique_combo w = "DPV" ->
       m = DPV (value "DPV" "Start Potential (V)")
               (value "DPV" "End Potential (V)")
               (value "DPV" "Step Potential (V)")
               (value "DPV" "Pulse Amplitude (V)")
               (value "DPV" "Pulse Width (s)")
               (value "DPV" "Scan Rate (V/s)")) /\
    (technique_combo w = "CV" ->
       exists n, Py.int (value "CV" "Number of Scans") = Ok n /\
       m = CV (value "CV" "Start Potential (V)")
              (value "CV" "First Vertex Potential (V)")
              (value "CV" "Second Vertex Potential (V)")
              (value "CV" "Step Potential (V)")
              (value "CV" "Scan Rate (V/s)") n) /\
    (technique_combo w = "SWV" ->
       m = SWV (value "SWV" "Start Potential (V)")
               (value "SWV" "End Potential (V)")
               (value "SWV" "Step Potential (V)")
               (value "SWV" "Amplitude (V)")
               (value "SWV" "Frequency (Hz)")) /\
    start_measurement w
    = showMessage
        (if is_connected (manager w) then
           if measure (manager w) m then MeasurementStarted
           else FailedToStartMeasurement
         else NoDeviceConnected)
        (set_current_data empty_data w).
Proof.
  intros Hw Hin Hint. unfold start_measurement. rewrite Hw.
  destruct (In_techniques _ Hin) as [E|[E|E]]; rewrite E in *.
  - eexists. split; [reflexivity|]. split; [discriminate|].
    split; [discriminate|].
    cbn. destruct (is_connected (manager w)); [|reflexivity].
    destruct (measure (manager w) _); reflexivity.
  - destruct (Hint eq_refl) as [n Hn].
    exists (CV (value "CV" "Start Potential (V)")
               (value "CV" "First Vertex Potential (V)")
               (value "CV" "Second Vertex Potential (V)")
               (value "CV" "Step Potential (V)")
               (value "CV" "Scan Rate (V/s)") n).
    split; [discriminate|]. split; [now exists n|]. split; [discriminate|].
    cbn. rewrite Hn. cbn.
    destruct (is_connected (manager w)); [|reflexivity].
    destruct (measure (manager w) _); reflexivity.
  - eexists. split; [discriminate|]. split; [discriminate|].
    split; [reflexivity|].
    cbn. destruct (is_connected (manager w)); [|reflexivity].
    destruct (measure (manager w) _); reflexivity.
Qed.

Lemma start_measurement_on_combo_witness :
  exists m,
    ("SWV" = "DPV" ->
       m = DPV (default_value "DPV" "Start Potential (V)")
               (default_value "DPV" "End Potential (V)")
               (default_value "DPV" "Step Potential (V)")
               (default_value "DPV" "Pulse Amplitude (V)")
               (default_value "DPV" "Pulse Width (s)")
               (default_value "DPV" "Scan Rate (V/s)")) /\
    ("SWV" = "CV" ->
       exists n, Py.int (default_value "CV" "Number of Scans") = Ok n /\
       m = CV (default_value "CV" "Start Potential (V)")
              (default_value "CV" "First Vertex Potential (V)")
              (default_value "CV" "Second Vertex Potential (V)")
              (default_value "CV" "Step Potential (V)")
              (default_value "CV" "Scan Rate (V/s)") n) /\
    ("SWV" = "SWV" ->
       m = SWV (default_value "SWV" "Start Potential (V)")
               (default_value "SWV" "End Potential (V)")
               (default_value "SWV" "Step Potential (V)")
               (default_value "SWV" "Amplitude (V)")
               (default_value "SWV" "Frequency (Hz)")) /\
    start_measurement built_window
    = showMessage
        (if is_connected (manager built_window) then
           if measure (manager built_window) m then MeasurementStarted
           else FailedToStartMeasurement
         else NoDeviceConnected)
        (set_current_data empty_data built_window).
Proof.
  refine (start_measurement_on_combo default_value built_window eq_refl _ _).
  - cbn. tauto.
  - discriminate.
Defined.

Example start_on_built_window :
  statusBar (start_measurement built_window) = Some MeasurementStarted /\
  current_data (start_measurement built_window) = empty_data.
Proof. split; reflexivity. Qed.

(** X9.  A measurement start never redraws: the plot, the data display
    and the results panel are as before the call.  It always shows a
    message, and the store is afterwards either empty, or untouched under
    an "Error starting measurement" message; so after a start that got
    past the building of the method the display still shows the rows of
    the trace that was cleared. *)
Theorem start_measurement_frame (w : app) :
  let w' := start_measurement w in
  ax w' = ax w /\
  data_text w' = data_text w /\
  results_text w' = results_text w /\
  statusBar w' <> None /\
  (current_data w' = empty_data \/
   (current_data w' = current_data w /\
    exists e, statusBar w' = Some (ErrorStartingMeasurement e))).
Proof.
  unfold start_measurement.
  destruct (let! params := subscript (param_widgets w) (technique_combo w)
            in build_method (technique_combo w) params) as [[m|]|e];
    cbn [manager set_current_data];
    try destruct (is_connected (manager w));
    try destruct (measure (manager w) m);
    cbn; repeat split; try discriminate; eauto.
Qed.

(** ** Analysis: bounds, sign and NaN *)

Lemma abs_nonnegative (x : float) :
  is_nan x = false -> PrimFloat.leb 0 (PrimFloat.abs x) = true.
Proof.
  intros Hx. apply is_nan_spec in Hx.
  rewrite FloatAxioms.leb_spec, FloatAxioms.abs_spec.
  change (Prim2SF 0) with (S754_zero false).
  now destruct (Prim2SF x) as [s|s| |s m e].
Qed.

Lemma leb_nan_l (x y : float) : is_nan x = true -> PrimFloat.leb x y = false.
Proof.
  intros Hx. apply is_nan_true in Hx.
  now rewrite FloatAxioms.leb_spec, Hx.
Qed.

(** A NaN anywhere in the array is what the reduction of [max] returns. *)
Lemma fold_maximum_nan_in (rest : list float) (x : float) :
  existsb is_nan (x :: rest) = true ->
  is_nan (fold_left Np.maximum rest x) = true.
Proof.
  revert x. induction rest as [|z rest IH]; intros x; cbn [existsb fold_left].
  - now rewrite orb_false_r.
  - intros H. apply IH. cbn [existsb].
    destruct (is_nan x) eqn:Hx.
    + now rewrite (maximum_nan _ _ Hx), Hx.
    + cbn [orb] in H. unfold Np.maximum. rewrite Hx, orb_false_r.
      destruct (is_nan z) eqn:Hz.
      * now rewrite (leb_nan_l _ x Hz), Hz.
      * cbn [orb] in H. destruct (PrimFloat.leb z x); now rewrite ?Hx, ?Hz.
Qed.

(** X10.  When the voltage sequence is at least as long as a non-empty
    current sequence, the analysis cannot fail: the index of the peak is
    within the current sequence, hence within the voltage sequence, one
    block is appended and the status bar is left alone. *)
Theorem analyze_data_in_bounds (w : app) (voltage current : list float) :
  dict_get "voltage" (current_data w) = Some voltage ->
  dict_get "current" (current_data w) = Some current ->
  current <> [] ->
  length current <= length voltage ->
  exists i pc pv,
    i < length current /\
    Np.argmax (Np.abs current) = Ok i /\
    Np.max (Np.abs current) = Ok pc /\
    nth_error voltage i = Some pv /\
    analyze_data w
    = append_results {| peak_current := pc; peak_voltage := pv;
                        data_points := length current |} w /\
    statusBar (analyze_data w) = statusBar w.
Proof.
  intros Hv Hc Hne Hlen.
  destruct (argmax_max (Np.abs current)) as (i & pc & Hi & Hm & Hnth & _).
  { unfold Np.abs. now destruct current. }
  assert (Hi' : i < length current).
  { assert (H : nth_error (Np.abs current) i <> None) by congruence.
    apply nth_error_Some in H. unfold Np.abs in H.
    now rewrite List.length_map in H. }
  destruct (nth_error voltage i) as [pv|] eqn:Hpv.
  2:{ apply nth_error_None in Hpv. lia. }
  exists i, pc, pv. repeat (split; [assumption|]).
  unfold analyze_data, analysis.
  rewrite (subscript_Ok _ _ _ Hv), (subscript_Ok _ _ _ Hc). cbn [Py.bind].
  destruct voltage as [|v0 voltage]; [destruct current; [congruence|simpl in Hlen; lia]|].
  destruct current as [|c0 current]; [congruence|].
  cbn [is_empty]. rewrite Hm, Hi. cbn [Py.bind]. unfold Np.item.
  rewrite Hpv. split; reflexivity.
Qed.

Lemma analyze_data_in_bounds_witness :
  exists i pc pv,
    i < length [1.2e-6; -1.5e-6; 0.9e-6]%float /\
    Np.argmax (Np.abs [1.2e-6; -1.5e-6; 0.9e-6]%float) = Ok i /\
    Np.max (Np.abs [1.2e-6; -1.5e-6; 0.9e-6]%float) = Ok pc /\
    nth_error [-0.5; -0.4; 0.5]%float i = Some pv /\
    analyze_data (window "CV" cv_values sweep true)
    = append_results {| peak_current := pc; peak_voltage := pv;
                        data_points := 3 |}
        (window "CV" cv_values sweep true) /\
    statusBar (analyze_data (window "CV" cv_values sweep true))
    = statusBar (window "CV" cv_values sweep true).
Proof.
  refine (analyze_data_in_bounds (window "CV" cv_values sweep true)
            [-0.5; -0.4; 0.5]%float [1.2e-6; -1.5e-6; 0.9e-6]%float
            eq_refl eq_refl _ _).
  - discriminate.
  - simpl. lia.
Defined.

(** X11.  The peak current that the analysis reports: when no current is
    NaN it is the absolute value of one of the currents, it is not NaN and
    it is at least zero; when some current is NaN it is NaN. *)
Theorem analysis_peak (d : dict (list float)) (current : list float)
  (r : analysis_results) :
  dict_get "current" d = Some current ->
  analysis d = Ok (Some r) ->
  (existsb is_nan current = false ->
     (exists x, In x current /\ peak_current r = PrimFloat.abs x) /\
     is_nan (peak_current r) = false /\
     PrimFloat.leb 0 (peak_current r) = true) /\
  (existsb is_nan current = true -> is_nan (peak_current r) = true).
Proof.
  intros Hc. unfold analysis. rewrite (subscript_Ok _ _ _ Hc).
  destruct (subscript d "voltage") as [voltage|]; cbn [Py.bind]; [|discriminate].
  destruct (is_empty voltage); [discriminate|].
  destruct current as [|c0 current]; [discriminate|]. cbn [is_empty].
  destruct (argmax_max (Np.abs (c0 :: current)))
    as (i & pc & Hi & Hm & Hnth & _); [discriminate|].
  rewrite Hm, Hi. cbn [Py.bind].
  destruct (Np.item voltage i); cbn [Py.bind]; [|discriminate].
  intros [= <-]. cbn [peak_current]. split.
  - intros Hnan.
    unfold Np.abs in Hnth. apply nth_error_In, in_map_iff in Hnth.
    destruct Hnth as (x & <- & Hx).
    assert (Hx' : is_nan x = false).
    { destruct (is_nan x) eqn:E; [|reflexivity].
      assert (existsb is_nan (c0 :: current) = true)
        by (apply existsb_exists; eauto).
      congruence. }
    split; [eauto|]. split; [now rewrite is_nan_abs|now apply abs_nonnegative].
  - intros Hnan. rewrite <- existsb_is_nan_abs in Hnan.
    injection Hm as <-. now apply fold_maximum_nan_in.
Qed.

Lemma analysis_peak_witness :
  (existsb is_nan [1.2e-6; -1.5e-6; 0.9e-6]%float = false ->
     (exists x, In x [1.2e-6; -1.5e-6; 0.9e-6]%float /\
                1.5e-6%float = PrimFloat.abs x) /\
     is_nan 1.5e-6 = false /\
     PrimFloat.leb 0 1.5e-6 = true) /\
  (existsb is_nan [1.2e-6; -1.5e-6; 0.9e-6]%float = true ->
   is_nan 1.5e-6 = true).
Proof.
  exact (analysis_peak sweep [1.2e-6; -1.5e-6; 0.9e-6]%float
           {| peak_current := 1.5e-6; peak_voltage := -0.4;
              data_points := 3 |} eq_refl eq_refl).
Defined.

Example analysis_with_nan :
  analysis [("voltage", [(-0.5)%float; (-0.4)%float; 0.5%float]);
            ("current", [1.2e-6%float; nan; 2.5e-6%float])]
  = Ok (Some {| peak_current := nan; peak_voltage := -0.4;
                data_points := 3 |}).
Proof. reflexivity. Qed.

(** ** Persistence: any store, other files, files without a table *)

Section PersistenceMore.

Import Pd.
Variable format_float : float -> string.
Variable parse_float64 : list string -> option (list float).

Lemma sequence_length {A} (l : list (option A)) (xs : list A) :
  sequence l = Some xs -> length xs = length l.
Proof.
  revert xs. induction l as [|[a|] l IH]; intros xs; simpl;
    [now intros [= <-] | | discriminate].
  destruct (sequence l) as [ys|]; [|discriminate].
  intros [= <-]. simpl. now rewrite (IH ys).
Qed.

Lemma keys_combine {V} (names : list string) (cols : list V) :
  length cols = length names -> keys (combine names cols) = names.
Proof.
  unfold keys. revert cols.
  induction names as [|n names IH]; intros [|c cols] H;
    simpl in *; try discriminate; [reflexivity..|].
  injection H as H. now rewrite IH.
Qed.

(** X12.  The round trip holds for every store, not only for a trace: a
    store whose columns have one length and that [to_csv] can write as
    plain CSV, saved under a writable name and opened again, comes back
    with the same column names in the same order, each column being what
    [read_csv] converts from the text its values were printed as. *)
Theorem save_open_any_store (w w0 : app) (fs : filesystem)
  (filename text : string) (cols : list (list float)) :
  nonempty filename = true ->
  writable fs filename = true ->
  DataFrame (current_data w) = Ok (current_data w) ->
  csv_text format_float (current_data w) = Some text ->
  sequence (map (parse_column parse_float64)
                (map (map format_float) (map snd (current_data w))))
  = Some cols ->
  exists fs' w',
    save_data format_float filename w fs
    = Some (showMessage (DataSavedTo filename) w, fs') /\
    files fs' !! filename = Some text /\
    open_data parse_float64 filename w0 fs' = Some w' /\
    current_data w' = combine (keys (current_data w)) cols /\
    keys (current_data w') = keys (current_data w) /\
    statusBar w' = Some (DataLoadedFrom filename).
Proof.
  intros Hname Hw Hdf Htext Hcols.
  destruct (DataFrame_Ok _ _ Hdf) as [_ Hlen].
  exists (write filename text fs). eexists.
  split; [|split; [apply lookup_insert_eq|]].
  - unfold save_data. rewrite Hname, Hdf. unfold to_csv.
    now rewrite Hw, Htext.
  - unfold open_data, read_csv, write. cbn [files].
    rewrite Hname, lookup_insert_eq.
    rewrite (parse_csv_csv_text format_float parse_float64 _ _ Hlen Htext).
    rewrite Hcols. split; [reflexivity|].
    cbn [statusBar showMessage current_data].
    rewrite current_data_refresh. cbn [current_data set_current_data].
    unfold to_dict_list. split; [reflexivity|]. split; [|reflexivity].
    apply keys_combine. rewrite (sequence_length _ _ Hcols).
    unfold keys. now rewrite !List.length_map.
Qed.

(** X13.  Whatever it answers, [save_data] changes nothing in the window
    but the status bar, writes to no other path than the chosen one and
    changes no permission; with an empty file name (a cancelled dialog) it
    changes nothing at all. *)
Theorem save_data_frame (filename : string) (w w' : app)
  (fs fs' : filesystem) :
  save_data format_float filename w fs = Some (w', fs') ->
  current_data w' = current_data w /\
  ax w' = ax w /\ data_text w' = data_text w /\
  results_text w' = results_text w /\
  writable fs' = writable fs /\
  (forall path, path <> filename -> files fs' !! path = files fs !! path) /\
  (filename = EmptyString -> w' = w /\ fs' = fs).
Proof.
  unfold save_data. destruct filename as [|ch filename]; cbn [nonempty].
  - intros [= <- <-]. repeat split.
  - destruct (DataFrame (current_data w)) as [df|e].
    + unfold to_csv. destruct (writable fs _).
      * destruct (csv_text format_float df); [|discriminate].
        intros [= <- <-]. repeat split; try discriminate.
        intros path Hpath. cbn [files write].
        now rewrite lookup_insert_ne by congruence.
      * intros [= <- <-]. repeat split. discriminate.
    + intros [= <- <-]. repeat split. discriminate.
Qed.

Lemma filter_blank_lines (text : string) :
  forallb_string (fun ch => Ascii.eqb ch LF) text = true ->
  List.filter nonempty (split_on LF text) = [].
Proof.
  induction text as [|ch text IH]; [reflexivity|].
  cbn [forallb_string split_on]. intros [Hc Ht]%andb_prop.
  rewrite Hc. cbn [List.filter nonempty]. now apply IH.
Qed.

Lemma parse_csv_blank (text : string) :
  forallb_string (fun ch => Ascii.eqb ch LF) text = true ->
  parse_csv parse_float64 text = Some (Raise EmptyDataError).
Proof.
  intros H. unfold parse_csv.
  rewrite (forallb_string_impl (fun ch => Ascii.eqb ch LF) readable) by
    (try exact H; intros ch Hc; unfold readable; now rewrite Hc).
  cbn [negb]. now rewrite (filter_blank_lines _ H).
Qed.

(** X14.  Opening a name under which there is no file, or a file that is
    empty or holds nothing but line breaks, loads nothing: the
    [FileNotFoundError], or the [EmptyDataError] of [read_csv], is shown as
    "Error loading data" and the store, the plot and the data display are
    left as they were.  With an empty file name (a cancelled dialog)
    nothing changes at all. *)
Theorem open_data_no_table (filename : string) (w : app) (fs : filesystem) :
  (filename = EmptyString ->
     open_data parse_float64 filename w fs = Some w) /\
  (nonempty filename = true -> files fs !! filename = None ->
     open_data parse_float64 filename w fs
     = Some (showMessage (ErrorLoadingData (FileNotFoundError filename)) w)) /\
  (forall text,
     nonempty filename = true -> files fs !! filename = Some text ->
     forallb_string (fun ch => Ascii.eqb ch LF) text = true ->
     open_data parse_float64 filename w fs
     = Some (showMessage (ErrorLoadingData EmptyDataError) w)).
Proof.
  unfold open_data, read_csv. split; [now intros ->|]. split.
  - now intros -> ->.
  - intros text -> -> Hblank. now rewrite (parse_csv_blank _ Hblank).
Qed.

End PersistenceMore.

Lemma save_open_any_store_witness :
  exists fs' w',
    save_data scenario_format "run.csv"
      (window "CV" cv_values timed true) (disk [])
    = Some (showMessage (DataSavedTo "run.csv")
              (window "CV" cv_values timed true), fs') /\
    Pd.files fs' !! "run.csv"
    = Some (text_lines ["time,voltage,current"; "0.5,-0.5,1.2e-06";
                        "-0.5,-0.4,1.5e-06"]) /\
    open_data scenario_parse "run.csv"
      (window "DPV" [] empty_data false) fs' = Some w' /\
    current_data w' = timed /\
    keys (current_data w') = ["time"; "voltage"; "current"] /\
    statusBar w' = Some (DataLoadedFrom "run.csv").
Proof.
  exact (save_open_any_store scenario_format scenario_parse
           (window "CV" cv_values timed true)
           (window "DPV" [] empty_data false) (disk []) "run.csv"
           (text_lines ["time,voltage,current"; "0.5,-0.5,1.2e-06";
                        "-0.5,-0.4,1.5e-06"])
           (map snd timed)
           eq_refl eq_refl eq_refl eq_refl eq_refl).
Defined.

Lemma save_data_frame_witness :
  let w := window "CV" cv_values recorded true in
  let fs := disk [("old.csv", text_lines ["voltage,current"])] in
  let fs' := Pd.write "run.csv"
               (Pd.trace_text scenario_format
                  [(-0.5)%float; (-0.4)%float] [1.2e-6%float; 1.5e-6%float])
               fs in
  Pd.files fs' !! "old.csv" = Pd.files fs !! "old.csv" /\
  current_data (showMessage (DataSavedTo "run.csv") w) = current_data w.
Proof.
  intros w fs fs'.
  destruct (save_data_frame scenario_format "run.csv" w
              (showMessage (DataSavedTo "run.csv") w) fs fs' eq_refl)
    as (Hd & _ & _ & _ & _ & Hother & _).
  split; [apply Hother; discriminate | exact Hd].
Defined.

Lemma open_data_no_table_witness :
  open_data scenario_parse "none.csv" (window "CV" cv_values recorded true)
    (disk [("blank.csv", text_lines [""; ""])])
  = Some (showMessage (ErrorLoadingData (FileNotFoundError "none.csv"))
            (window "CV" cv_values recorded true)) /\
  open_data scenario_parse "blank.csv" (window "CV" cv_values recorded true)
    (disk [("blank.csv", text_lines [""; ""])])
  = Some (showMessage (ErrorLoadingData EmptyDataError)
            (window "CV" cv_values recorded true)).
Proof.
  split.
  - exact (proj1 (proj2 (open_data_no_table scenario_parse "none.csv"
                           (window "CV" cv_values recorded true)
                           (disk [("blank.csv", text_lines [""; ""])])))
                 eq_refl eq_refl).
  - exact (proj2 (proj2 (open_data_no_table scenario_parse "blank.csv"
                           (window "CV" cv_values recorded true)
                           (disk [("blank.csv", text_lines [""; ""])])))
                 (text_lines [""; ""]) eq_refl eq_refl eq_refl).
Defined.

(** ** The connect button *)

Lemma connect_device_invariant (sdk : manager_answers) (c : connection) :
  connection_invariant c -> connection_invariant (connect_device sdk c).
Proof.
  unfold connection_invariant, connect_device.
  intros [(Hb & Hs & Hm)|[(Hb & Hs & Hm)|(Hb & Hs & Hm)]]; rewrite Hb;
    cbn [String.eqb Ascii.eqb Bool.eqb];
    try destruct (discover_instruments sdk) as [|device rest];
    try destruct (connect sdk device); try destruct (disconnect sdk);
    cbn [connect_btn start_btn connection_status]; rewrite ?Hb, ?Hs;
    eauto 10.
Qed.

Lemma clicks_invariant (answers : list manager_answers) (c : connection) :
  connection_invariant c -> connection_invariant (clicks answers c).
Proof.
  unfold clicks. revert c.
  induction answers as [|sdk answers IH]; intros c Hc; [exact Hc|].
  cbn [fold_left]. apply IH. now apply connect_device_invariant.
Qed.

(** X15.  After any sequence of clicks on the connect button, whatever
    the instrument manager answered to each: the button reads "Connect
    Device" or "Disconnect"; when it reads "Disconnect" the start button is
    enabled; and the start button is enabled while the button reads
    "Connect Device" only as long as no connection has succeeded (the
    window starts that way, start enabled with nothing connected). *)
Theorem connect_device_clicks (answers : list manager_answers) :
  let c := clicks answers initial_connection in
  (connect_btn c = "Connect Device" \/ connect_btn c = "Disconnect") /\
  (connect_btn c = "Disconnect" -> start_btn c = true) /\
  (connect_btn c = "Connect Device" -> start_btn c = true ->
     Forall (fun sdk => match discover_instruments sdk with
                        | device :: _ => connect sdk device = false
                        | [] => True
                        end) answers) /\
  (start_btn c = false -> connect_btn c = "Connect Device").
Proof.
  intros c.
  assert (Hinv : connection_invariant c).
  { apply clicks_invariant. left. cbn. auto. }
  split; [|split; [|split]].
  - destruct Hinv as [(Hb & _)|[(Hb & _)|(Hb & _)]]; auto.
  - destruct Hinv as [(Hb & Hs & _)|[(Hb & Hs & _)|(Hb & Hs & _)]];
      intros H; congruence.
  - subst c. clear Hinv.
    assert (H : forall c0,
               connect_btn c0 = "Connect Device" -> start_btn c0 = true ->
               connect_btn (clicks answers c0) = "Connect Device" ->
               start_btn (clicks answers c0) = true ->
               connection_invariant c0 ->
               Forall (fun sdk => match discover_instruments sdk with
                                  | device :: _ => connect sdk device = false
                                  | [] => True
                                  end) answers).
    { unfold clicks.
      induction answers as [|sdk answers IH]; intros c0 Hb0 Hs0 Hb Hs Hinv0;
        [constructor|].
      cbn [fold_left] in Hb, Hs.
      pose proof (connect_device_invariant sdk c0 Hinv0) as Hinv1.
      assert (Hnext : connect_btn (connect_device sdk c0) = "Connect Device"
                      /\ start_btn (connect_device sdk c0) = true
                      /\ match discover_instruments sdk with
                         | device :: _ => connect sdk device = false
                         | [] => True
                         end).
      { unfold connect_device in *. rewrite Hb0 in *.
        cbn [String.eqb Ascii.eqb Bool.eqb] in *.
        destruct (discover_instruments sdk) as [|device rest];
          [cbn; auto|].
        destruct (connect sdk device); [|cbn; auto].
        exfalso.
        (* once connected, the start button can only come back enabled
           together with the "Disconnect" label *)
        set (c1 := {| connect_btn := "Disconnect"; start_btn := true;
                      connection_status := Some (ConnectedTo device) |}) in *.
        clear IH Hinv0 Hinv1.
        assert (Hc1 : (connect_btn c1 = "Disconnect" /\ start_btn c1 = true)
                      \/ (connect_btn c1 = "Connect Device"
                          /\ start_btn c1 = false)) by (left; now split).
        revert Hb Hs. generalize dependent c1. clear.
        induction answers as [|sdk answers IH]; intros c1 Hc1 Hb Hs;
          cbn [fold_left] in *.
        - destruct Hc1 as [[H1 H2]|[H1 H2]]; congruence.
        - refine (IH (connect_device sdk c1) _ Hb Hs).
          unfold connect_device.
          destruct Hc1 as [[H1 H2]|[H1 H2]]; rewrite H1;
            cbn [String.eqb Ascii.eqb Bool.eqb];
            try destruct (discover_instruments sdk) as [|device rest];
            try destruct (connect sdk device); try destruct (disconnect sdk);
            cbn [connect_btn start_btn]; auto. }
      destruct Hnext as (Hb1 & Hs1 & Hsdk).
      constructor; [exact Hsdk|].
      exact (IH _ Hb1 Hs1 Hb Hs Hinv1). }
    intros Hb Hs. apply (H initial_connection); auto.
    left. cbn. auto.
  - destruct Hinv as [(Hb & Hs & _)|[(Hb & Hs & _)|(Hb & Hs & _)]];
      intros H; congruence.
Qed.

Lemma connect_device_clicks_witness :
  let sdk_none := {| discover_instruments := []; connect := fun _ => true;
                     disconnect := true |} in
  let sdk_one := {| discover_instruments := ["EmStat4"; "Sensit"];
                    connect := fun _ => true; disconnect := true |} in
  clicks [sdk_none; sdk_one] initial_connection
  = {| connect_btn := "Disconnect"; start_btn := true;
       connection_status := Some (ConnectedTo "EmStat4") |} /\
  start_btn (clicks [sdk_none; sdk_one; sdk_one; sdk_none] initial_connection)
  = false /\
  connect_btn (clicks [sdk_none; sdk_one; sdk_one; sdk_none] initial_connection)
  = "Connect Device".
Proof.
  intros sdk_none sdk_one. split; [reflexivity|]. split; [reflexivity|].
  exact (proj2 (proj2 (proj2 (connect_device_clicks
                                [sdk_none; sdk_one; sdk_one; sdk_none])))
               eq_refl).
Defined.

(** ** The label test *)

Lemma prefix_append (sub s : string) :
  String.prefix sub s = true <-> exists post, s = String.append sub post.
Proof.
  revert s. induction sub as [|a sub IH]; intros [|b s]; cbn [String.prefix].
  - split; [intros _; now exists EmptyString | reflexivity].
  - split; [intros _; now exists (String b s) | reflexivity].
  - split; [discriminate | intros [post H]; discriminate H].
  - destruct (ascii_dec a b) as [->|Hab].
    + rewrite IH. split; intros [post H]; exists post.
      * now rewrite H.
      * now injection H.
    + split; [discriminate|]. intros [post H]. injection H as H _.
      congruence.
Qed.

Lemma str_in_append (sub s : string) :
  str_in sub s = true <->
  exists pre post, s = String.append pre (String.append sub post).
Proof.
  induction s as [|ch s IH]; cbn [str_in].
  - rewrite orb_false_r, prefix_append. split.
    + intros [post H]. now exists EmptyString, post.
    + intros ([|ch pre] & post & H); [now exists post | discriminate H].
  - rewrite orb_true_iff, prefix_append, IH. split.
    + intros [[post H]|(pre & post & H)].
      * now exists EmptyString, post.
      * exists (String ch pre), post. now rewrite H.
    + intros ([|ch' pre] & post & H).
      * left. now exists post.
      * right. injection H as _ H. now exists pre, post.
Qed.

Lemma lower_lower (s : string) : lower (lower s) = lower s.
Proof.
  induction s as [|ch s IH]; [reflexivity|]. cbn [lower]. rewrite IH. f_equal.
  unfold ascii_lower.
  destruct ((65 <=? N_of_ascii ch)%N && (N_of_ascii ch <=? 90)%N) eqn:E.
  - apply andb_prop in E as [E1 E2].
    apply N.leb_le in E1, E2.
    assert (Hlt : (N_of_ascii ch + 32 < 256)%N) by lia.
    rewrite N_ascii_embedding by exact Hlt.
    replace ((65 <=? N_of_ascii ch + 32)%N && (N_of_ascii ch + 32 <=? 90)%N)
      with false; [reflexivity|].
    symmetry. apply andb_false_iff. right. apply N.leb_gt. lia.
  - now rewrite E.
Qed.

(** X16.  The test of the sink is plain containment in the lowercased
    label: a sample is stored as a potential exactly when its lowercased
    label can be cut as [pre ++ "potential" ++ post], and as a current
    exactly when it can be cut around "current" and cannot around
    "potential".  Lowercasing a label that is already lowercased changes
    nothing, so a label and its lowercased form are always stored the same
    way. *)
Theorem label_test (label : string) (value : float) :
  (to_voltage (label, value) = true <->
   exists pre post,
     lower label = String.append pre (String.append "potential" post)) /\
  (to_current (label, value) = true <->
   (exists pre post,
      lower label = String.append pre (String.append "current" post)) /\
   ~ (exists pre post,
        lower label = String.append pre (String.append "potential" post))) /\
  to_voltage (lower label, value) = to_voltage (label, value) /\
  to_current (lower label, value) = to_current (label, value).
Proof.
  unfold to_voltage, to_current. cbn [fst]. rewrite lower_lower.
  split; [apply str_in_append|]. split; [|split; reflexivity].
  rewrite andb_true_iff, negb_true_iff, <- !str_in_append.
  destruct (str_in "potential" (lower label)); intuition congruence.
Qed.

Example label_examples :
  to_voltage ("WE POTENTIAL (V)", 0.5%float) = true /\
  to_voltage ("Potentiostat", 0.5%float) = false /\
  to_current ("Concurrent", 0.5%float) = true /\
  to_current ("I (A)", 0.5%float) = false.
Proof. repeat split. Qed.
